(** * Polaris Hub client: shallow embedding of [polaris/hub/client.py]

    The client is a subclass of authlib's [OAuth2Client] (itself an
    [httpx.Client]).  Every method of [PolarisHubClient] is rendered as a
    computation in a state-and-exception monad.  The behaviour of the
    third-party base classes, of the hub and of the storage back end is
    not part of the repository: it is taken as an interface ([Backend])
    over an abstract world [W], so that every statement below holds for
    every behaviour of these collaborators.

    The state carries a trace of the actions a method performs, in the
    order of the statements of the source.  Calls to the logger are left
    out, and the long texts of two error messages are abridged. *)

From stdpp Require Import base strings list gmap fin_maps sorting.
From Stdlib Require Import ZArith Lia.

Local Open Scope string_scope.
Local Open Scope Z_scope.
Local Open Scope list_scope.

Set Warnings "-register-all".

(** ** Plain data *)

Abbreviation Bytes := (list Byte.byte).

(** A chunked array store seen as a mapping from keys to byte strings
    ([MutableMapping] in zarr). *)
Abbreviation Store := (gmap string Bytes).

(** Decoded JSON documents. *)
Inductive Json : Type :=
| JNull
| JBool (b : bool)
| JNum (n : Z)
| JStr (s : string)
| JArr (items : list Json)
| JObj (fields : list (string * Json)).

(** [TimeoutTypes]: one value for all IO operations or a
    (connect, write) pair. *)
Inductive Timeout : Type :=
| TimeoutAll (seconds : Z)
| TimeoutConnectWrite (connect write : Z).

(** The [auth] argument of a request: httpx's [USE_CLIENT_DEFAULT]
    sentinel, an explicit [None], or an explicit auth object. *)
Inductive AuthArg : Type :=
| USE_CLIENT_DEFAULT
| AuthNone
| AuthExplicit (description : string).

(** [IOMode], as the strings the code compares against. *)
Definition IOMode : Type := string.

(** [ZarrConflictResolution]. *)
Inductive ZarrConflictResolution : Type :=
| IfExistsRaise
| IfExistsReplace
| IfExistsSkip.

Definition Headers := list (string * string).

(** Keyword arguments the client passes along with a request. *)
Record Kwargs : Type := mkKwargs {
  kw_headers : option Headers;
  kw_json : option Json;
  kw_content : option Bytes;
  kw_timeout : option Timeout;
  kw_params : option (list (string * Z))
}.

Definition no_kwargs : Kwargs :=
  {| kw_headers := None; kw_json := None; kw_content := None;
     kw_timeout := None; kw_params := None |}.

(** A call as it reaches the base class' [request]. *)
Record Request : Type := mkRequest {
  req_method : string;
  req_url : string;
  req_withhold_token : bool;
  req_auth : AuthArg;
  req_kwargs : Kwargs
}.

(** An [httpx.Response].  [resp_json] is what [response.json()] yields:
    [None] when the body does not decode; which exception that raises is
    decided by [response_json] below. *)
Record Response : Type := mkResponse {
  status_code : Z;
  resp_headers : Headers;
  resp_content : Bytes;
  resp_json : option Json
}.

Definition OAuth2Token : Type := string.

(** The exceptions that occur in the client.  [raise X from error]
    keeps the cause. *)
Inductive Exn : Type :=
| ConnectError (message : string)
| SSLCertVerificationError (message : string) (cause : Exn)
| MissingTokenError
| InvalidTokenError
| OAuthError (description : string)
| HTTPStatusError (response : Response)
| PolarisUnauthorizedError (cause : Exn)
| PolarisHubError (message : string) (cause : Exn)
| InvalidDatasetError (message : string)
| ValueError (message : string)
| JSONDecodeError
| UnicodeDecodeError
| KeyError (key : string)
| TypeError (message : string)
| CopyError (key : string)
| OtherError (message : string).

Inductive Result (A : Type) : Type :=
| Ok (a : A)
| Raise (e : Exn).
Arguments Ok {A} a.
Arguments Raise {A} e.

(** What [_base_request_to_hub] hands back: the decoded body, or the
    response object itself when the body is not JSON. *)
Inductive HubReply : Type :=
| ReplyJson (j : Json)
| ReplyRaw (r : Response).

(** ** Observable actions

    The order in which a method touches its collaborators is recorded in
    a trace. *)
Inductive StoreOp : Type :=
| OpContains (key : string)
| OpSetItem (key : string).

(** [EvTableSerialized]: the table has been written to the buffer and
    its size and digest have been taken.  [EvRequest]: a call handed to
    the base class.  The other three are the actions on the archives. *)
Inductive Event : Type :=
| EvTableSerialized (size : nat) (digest : string)
| EvRequest (r : Request)
| EvZarrOpen (path : string) (mode : IOMode) (consolidated : bool)
| EvConsolidate
| EvStore (op : StoreOp).

(** ** Small helpers *)

(** Python's [needle in haystack] on strings. *)
Fixpoint contains (needle haystack : string) : bool :=
  String.prefix needle haystack ||
  match haystack with
  | EmptyString => false
  | String _ rest => contains needle rest
  end.

(** [httpx.Response.is_success] and [raise_for_status]. *)
Definition is_success (r : Response) : bool :=
  (200 <=? status_code r) && (status_code r <=? 299).

Definition raise_for_status (r : Response) : Result Response :=
  if is_success r then Ok r else Raise (HTTPStatusError r).

(** [obj[key]] on a decoded JSON value. *)
Fixpoint assoc {V} (key : string) (fields : list (string * V)) : option V :=
  match fields with
  | [] => None
  | (k, v) :: rest => if String.eqb k key then Some v else assoc key rest
  end.

(** [d[key] = v] and [{**d, **extra}] on a dictionary kept in insertion
    order. *)
Fixpoint dict_set {V} (key : string) (v : V) (d : list (string * V)) : list (string * V) :=
  match d with
  | [] => [(key, v)]
  | (k, x) :: rest =>
      if String.eqb k key then (k, v) :: rest else (k, x) :: dict_set key v rest
  end.

Definition dict_update {V} (d extra : list (string * V)) : list (string * V) :=
  fold_left (λ acc kv, dict_set kv.1 kv.2 acc) extra d.

Definition getitem (key : string) (j : Json) : Result Json :=
  match j with
  | JObj fields =>
      match assoc key fields with
      | Some v => Ok v
      | None => Raise (KeyError key)
      end
  | _ => Raise (TypeError "object is not subscriptable")
  end.

Definition reply_getitem (key : string) (r : HubReply) : Result Json :=
  match r with
  | ReplyJson j => getitem key j
  | ReplyRaw _ => Raise (TypeError "'Response' object is not subscriptable")
  end.

Definition as_str (j : Json) : Result string :=
  match j with
  | JStr s => Ok s
  | _ => Raise (TypeError "expected a string")
  end.

Fixpoint as_headers_fields (fields : list (string * Json)) : Result Headers :=
  match fields with
  | [] => Ok []
  | (k, JStr v) :: rest =>
      match as_headers_fields rest with
      | Ok hs => Ok ((k, v) :: hs)
      | Raise e => Raise e
      end
  | _ => Raise (TypeError "header value must be a string")
  end.

Definition as_headers (j : Json) : Result Headers :=
  match j with
  | JObj fields => as_headers_fields fields
  | _ => Raise (TypeError "headers must be a mapping")
  end.

(** A decoded value passed as the [headers] of a request, where nothing
    is spread into a dictionary first: [None] stands for no headers. *)
Definition as_header_types (j : Json) : Result (option Headers) :=
  match j with
  | JNull => Ok None
  | _ =>
      match as_headers j with
      | Ok headers => Ok (Some headers)
      | Raise e => Raise e
      end
  end.

Definition _HTTPX_SSL_ERROR_CODE : string := "[SSL: CERTIFICATE_VERIFY_FAILED]".

(** Python truthiness of an optional string ([if not dataset.license]). *)
Definition truthy (o : option string) : bool :=
  match o with
  | None | Some EmptyString => false
  | Some _ => true
  end.

(** [mode in ["r", "r+"]] *)
Definition is_read_mode (mode : IOMode) : bool :=
  String.eqb mode "r" || String.eqb mode "r+".

(** The order of [sorted(...)] on keys. *)
Definition key_le (a b : string) : Prop := String.leb a b = true.

#[global] Instance key_le_dec (a b : string) : Decision (key_le a b).
Proof. unfold key_le. apply _. Defined.

Definition sorted_keys (m : Store) : list string :=
  merge_sort key_le (map_to_list m).*1.

(** ** The monad of client methods

    A method takes the state it runs in and hands back either a value or
    the exception it raised, together with the state it leaves behind. *)

Definition M (S A : Type) : Type := S → Result A * S.

Definition ret {S A} (a : A) : M S A := λ s, (Ok a, s).

Definition bind {S A C} (m : M S A) (k : A → M S C) : M S C :=
  λ s, match m s with
       | (Ok a, s') => k a s'
       | (Raise e, s') => (Raise e, s')
       end.

Definition throw {S A} (e : Exn) : M S A := λ s, (Raise e, s).

(** A pure step that may raise. *)
Definition lift {S A} (r : Result A) : M S A := λ s, (r, s).

(** [try: body / except Exception as e: handler e] *)
Definition try_except {S A} (body : M S A) (handler : Exn → M S A) : M S A :=
  λ s, match body s with
       | (Ok a, s') => (Ok a, s')
       | (Raise e, s') => handler e s'
       end.

Notation "'let*' x ':=' m 'in' k" := (bind m (λ x, k))
  (at level 10, x name, m at level 100, k at level 200).
Notation "m ;;; k" := (bind m (λ _, k))
  (at level 100, right associativity).

(** Modelled from the spec: [tmp_attribute_change] of
    [polaris/utils/context.py], which is not among the sources.  The
    spec's words: capture the prior value, apply the new value, run the
    operation, and restore the prior value on every exit path, error
    propagation included. *)
Definition tmp_attribute_change {S V A}
    (getattr : S → V) (setattr : V → S → S) (value : V) (body : M S A) : M S A :=
  λ s,
    let original_value := getattr s in
    let '(r, s') := body (setattr value s) in
    (r, setattr original_value s').

(** ** Client state and collaborators *)

(** [ChecksumStrategy] *)
Inductive ChecksumStrategy : Type :=
| Verify
| VerifyUnlessZarr
| Ignore.

Record Dataset (Table : Type) : Type := mkDataset {
  license : option string;
  owner_of : option string;
  name_of : option string;
  table : Table;
  uses_zarr : bool;
  _zarr_md5sum_manifest : list Json;
  md5sum : option Json
}.
Arguments mkDataset {Table}.
Arguments license {Table}.
Arguments owner_of {Table}.
Arguments name_of {Table}.
Arguments table {Table}.
Arguments uses_zarr {Table}.
Arguments _zarr_md5sum_manifest {Table}.
Arguments md5sum {Table}.

(** [PolarisFileSystem(polaris_client=self, dataset_owner=..., dataset_name=...)] *)
Record PolarisFileSystem : Type := mkPolarisFileSystem {
  dataset_owner : string;
  dataset_name : string
}.

Record State (W : Type) : Type := mkState {
  (** everything outside the process: hub, identity provider, network *)
  world : W;
  (** [self.token] *)
  token : option OAuth2Token;
  (** [self.settings.default_timeout] *)
  default_timeout : Timeout;
  (** [dataset.zarr_root.store.store], the local archive *)
  local_zarr : Store;
  (** the archive of the dataset on the hub, as [dest.store] shows it *)
  hub_zarr : Store;
  (** what has been done so far *)
  trace : list Event
}.
Arguments mkState {W}.
Arguments world {W}.
Arguments token {W}.
Arguments default_timeout {W}.
Arguments local_zarr {W}.
Arguments hub_zarr {W}.
Arguments trace {W}.

(** The collaborators of the client.  Each one may change the world and
    may raise. *)
Record Backend (W Table : Type) : Type := mkBackend {
  (** [OAuth2Client.request], reached through [super().request(...)] *)
  super_request : Request → W → Result Response * W;
  (** [OAuth2Client.ensure_active_token]; the result is its truth value *)
  super_ensure_active_token : OAuth2Token → W → Result bool * W;
  (** [self.external_client.ensure_active_token(self.external_client.token)] *)
  external_ensure_active_token : W → Result bool * W;
  (** [self.fetch_token()] *)
  fetch_token : W → Result OAuth2Token * W;
  (** [self.external_client.interactive_login(...)] *)
  interactive_login : bool → bool → W → Result () * W;
  (** [zarr.storage.FSStore(path, fs=polaris_fs)] followed by [zarr.open]
      or, with the flag set, [zarr.open_consolidated]; the file system
      works under the session default timeout, and opening may rewrite
      the archive on the hub *)
  zarr_open : PolarisFileSystem → string → IOMode → bool → Timeout → Store → W →
              Result () * Store * W;
  (** [zarr.consolidate_metadata] on the local archive *)
  zarr_consolidate_metadata : Store → W → Result () * Store * W;
  (** a store operation on the hub archive travels over the network under
      the session default timeout, and may fail *)
  hub_store_fault : StoreOp → Timeout → W → option Exn * W;
  (** [DataFrame.to_parquet] into a buffer *)
  to_parquet : Table → Bytes;
  (** [md5(...).hexdigest()] *)
  md5_hexdigest : Bytes → string;
  (** [json.dumps(..., indent=2, sort_keys=True)] *)
  json_dumps : Json → string;
  (** whether the bytes of a body are text in the encoding [json.loads]
      detects; on bytes that are not, [response.json()] raises
      [UnicodeDecodeError] *)
  decodes_as_text : Bytes → bool;
  (** [HubOwner.normalize(owner or dataset.owner)] *)
  normalize_owner : option string → Result string;
  (** [sluggify] *)
  sluggify : string → string;
  (** [PolarisFileSystem.protocol] *)
  fs_protocol : string;
  (** [dataset.model_dump(exclude=..., exclude_none=True, by_alias=True)] *)
  model_dump : Dataset Table → list (string * Json);
  (** [pd.read_parquet] on the downloaded buffer *)
  read_parquet : Bytes → Result Table;
  (** the [Dataset] constructor on the response, once the table is in place *)
  make_dataset : Json → Table → Result (Dataset Table);
  (** [should_verify_checksum] and [dataset.verify_checksum()] *)
  should_verify_checksum : ChecksumStrategy → Dataset Table → bool;
  verify_checksum : Dataset Table → Result ();
  (** [dataset.md5sum = value], the setter of the checksum mixin, which
      refuses a value that is no digest *)
  set_md5sum : Json → Dataset Table → Result (Dataset Table)
}.
Arguments super_request {W Table}.
Arguments super_ensure_active_token {W Table}.
Arguments external_ensure_active_token {W Table}.
Arguments fetch_token {W Table}.
Arguments interactive_login {W Table}.
Arguments zarr_open {W Table}.
Arguments zarr_consolidate_metadata {W Table}.
Arguments hub_store_fault {W Table}.
Arguments to_parquet {W Table}.
Arguments md5_hexdigest {W Table}.
Arguments json_dumps {W Table}.
Arguments decodes_as_text {W Table}.
Arguments normalize_owner {W Table}.
Arguments sluggify {W Table}.
Arguments fs_protocol {W Table}.
Arguments model_dump {W Table}.
Arguments read_parquet {W Table}.
Arguments make_dataset {W Table}.
Arguments should_verify_checksum {W Table}.
Arguments verify_checksum {W Table}.
Arguments set_md5sum {W Table}.

Section Client.

Context {W Table : Type} (B : Backend W Table).

Abbreviation Client := (M (State W)).

(** *** State access *)

Definition set_world (w : W) (s : State W) : State W :=
  mkState w (token s) (default_timeout s) (local_zarr s) (hub_zarr s) (trace s).

Definition set_token (t : option OAuth2Token) (s : State W) : State W :=
  mkState (world s) t (default_timeout s) (local_zarr s) (hub_zarr s) (trace s).

Definition set_default_timeout (t : Timeout) (s : State W) : State W :=
  mkState (world s) (token s) t (local_zarr s) (hub_zarr s) (trace s).

Definition set_local_zarr (m : Store) (s : State W) : State W :=
  mkState (world s) (token s) (default_timeout s) m (hub_zarr s) (trace s).

Definition set_hub_zarr (m : Store) (s : State W) : State W :=
  mkState (world s) (token s) (default_timeout s) (local_zarr s) m (trace s).

Definition record (e : Event) (s : State W) : State W :=
  mkState (world s) (token s) (default_timeout s) (local_zarr s) (hub_zarr s)
          (trace s ++ [e]).

Definition emit (e : Event) : Client () := λ s, (Ok (), record e s).

Definition read {A} (f : State W → A) : Client A := λ s, (Ok (f s), s).

Definition modify (f : State W → State W) : Client () := λ s, (Ok (), f s).

(** Run a collaborator on the world. *)
Definition on_world {A} (f : W → Result A * W) : Client A :=
  λ s, let '(r, w) := f (world s) in (r, set_world w s).

(** *** [ensure_active_token] *)

Definition ensure_active_token (tok : OAuth2Token) : Client bool :=
  let* is_active := on_world (super_ensure_active_token B tok) in
  if is_active : bool then ret true
  else
    (* Check if external token is still valid *)
    let* external_active := on_world (external_ensure_active_token B) in
    if negb external_active then ret false
    else
      (* If so, use it to get a new Hub token *)
      let* fresh := on_world (fetch_token B) in
      modify (set_token (Some fresh)) ;;;
      ret true.

(** *** [request] *)

Definition call_super_request (r : Request) : Client Response :=
  emit (EvRequest r) ;;;
  on_world (super_request B r).

Definition request (method url : string) (withhold_token : bool)
    (auth : AuthArg) (kwargs : Kwargs) : Client Response :=
  try_except
    (call_super_request (mkRequest method url withhold_token auth kwargs))
    (λ error,
       match error with
       | ConnectError message =>
           if contains _HTTPX_SSL_ERROR_CODE message
           then throw (SSLCertVerificationError
                         "We could not verify the SSL certificate." error)
           else throw error
       | MissingTokenError | InvalidTokenError | OAuthError _ =>
           throw (PolarisUnauthorizedError error)
       | HTTPStatusError response =>
           if negb (status_code response =? 401) then throw error
           else throw (PolarisUnauthorizedError error)
       | _ => throw error
       end).

(** [httpx.Client.get], which dispatches to [self.request]. *)
Definition get (url : string) (auth : AuthArg) (headers : option Headers)
  : Client Response :=
  request "GET" url false auth (mkKwargs headers None None None None).

(** *** [_load_from_signed_url] *)

Definition _load_from_signed_url {A} (url : string) (load_fn : Bytes → Result A)
    (headers : option Headers) : Client A :=
  let* response := get url AuthNone headers in
  let* _ := lift (raise_for_status response) in
  lift (load_fn (resp_content response)).

(** *** [response.json()] *)

(** The decoded body.  On a body that does not decode the exception is
    [json.JSONDecodeError] when the body is text that is no JSON
    document, and [UnicodeDecodeError] when its bytes are no text. *)
Definition response_json (response : Response) : Result Json :=
  match resp_json response with
  | Some j => Ok j
  | None =>
      if decodes_as_text B (resp_content response) then Raise JSONDecodeError
      else Raise UnicodeDecodeError
  end.

(** *** [_base_request_to_hub] *)

Definition hub_error_message (payload : Json) : string :=
  "The request to the Polaris Hub failed. See the error message below for more details:"
  +:+ String (Ascii.ascii_of_nat 10) (json_dumps B payload).

Definition _base_request_to_hub (url method : string) (kwargs : Kwargs)
  : Client HubReply :=
  let* response := request method url false USE_CLIENT_DEFAULT kwargs in
  match raise_for_status response with
  | Raise error =>
      (* With an internal server error, we are not sure the custom
         error-handling code on the hub is reached. *)
      if status_code response =? 500 then throw error
      else
        match response_json response with
        | Raise decoding_error => throw decoding_error
        | Ok payload => throw (PolarisHubError (hub_error_message payload) error)
        end
  | Ok _ =>
      (* only [json.JSONDecodeError] is caught *)
      match response_json response with
      | Ok j => ret (ReplyJson j)
      | Raise JSONDecodeError => ret (ReplyRaw response)
      | Raise decoding_error => throw decoding_error
      end
  end.

(** *** [login] *)

Definition login (overwrite auto_open_browser : bool) : Client () :=
  let* tok := read token in
  let* must_login :=
    if overwrite then ret true
    else match tok with
         | None => ret true
         | Some t => let* active := ensure_active_token t in ret (negb active)
         end in
  if must_login : bool then
    on_world (interactive_login B overwrite auto_open_browser) ;;;
    let* fresh := on_world (fetch_token B) in
    modify (set_token (Some fresh))
  else ret ().

(** *** [get_dataset] *)

Definition get_dataset (owner name : string) (verify_checksum_strategy : ChecksumStrategy)
  : Client (Dataset Table) :=
  let* response := _base_request_to_hub ("/dataset/" +:+ owner +:+ "/" +:+ name) "GET" no_kwargs in
  let* table_content := lift (reply_getitem "tableContent" response) in
  let* table_url_json := lift (getitem "url" table_content) in
  let* table_url := lift (as_str table_url_json) in
  let* storage_response := get table_url USE_CLIENT_DEFAULT None in
  (* This should be a 307 redirect with the signed URL *)
  (if negb (status_code storage_response =? 307) then
     match raise_for_status storage_response with
     | Ok _ => ret ()
     | Raise error =>
         throw (PolarisHubError "Could not get signed URL from Polaris Hub." error)
     end
   else ret ()) ;;;
  let* storage_body := lift (response_json storage_response) in
  let* url_json := lift (getitem "url" storage_body) in
  let* headers_json := lift (getitem "headers" storage_body) in
  let* url := lift (as_str url_json) in
  let* headers := lift (as_header_types headers_json) in
  let* loaded := _load_from_signed_url url (read_parquet B) headers in
  let* fields :=
    lift (match response with
          | ReplyJson j => Ok j
          | ReplyRaw _ => Raise (TypeError "'Response' object does not support item assignment")
          end) in
  let* dataset := lift (make_dataset B fields loaded) in
  if should_verify_checksum B verify_checksum_strategy dataset then
    lift (verify_checksum B dataset) ;;;
    ret dataset
  else
    let* reported := lift (getitem "md5Sum" fields) in
    lift (set_md5sum B reported dataset).

(** *** [open_zarr_file] *)

Definition run_zarr_open (fs : PolarisFileSystem) (path : string) (mode : IOMode)
    (consolidated : bool) : Client () :=
  λ s,
    let '(r, hub, w) :=
      zarr_open B fs path mode consolidated (default_timeout s) (hub_zarr s) (world s) in
    (r, set_hub_zarr hub (set_world w s)).

Definition open_zarr_file (owner name path : string) (mode : IOMode)
    (as_consolidated : bool) : Client () :=
  if as_consolidated && negb (is_read_mode mode) then
    throw (ValueError "Consolidated archives can only be used with 'r' or 'r+' mode.")
  else
    let polaris_fs := mkPolarisFileSystem owner name in
    try_except
      (emit (EvZarrOpen path mode (is_read_mode mode && as_consolidated)) ;;;
       run_zarr_open polaris_fs path mode (is_read_mode mode && as_consolidated))
      (λ e, throw (PolarisHubError "Error opening Zarr store" e)).

(** *** Store operations on the hub archive *)

Definition hub_store_op (op : StoreOp) : Client () :=
  emit (EvStore op) ;;;
  λ s,
    match hub_store_fault B op (default_timeout s) (world s) with
    | (Some e, w) => (Raise e, set_world w s)
    | (None, w) => (Ok (), set_world w s)
    end.

(** [key in dest] *)
Definition hub_contains (key : string) : Client bool :=
  hub_store_op (OpContains key) ;;;
  let* hub := read hub_zarr in
  ret (bool_decide (is_Some (hub !! key))).

(** [dest[key] = data] *)
Definition hub_setitem (key : string) (data : Bytes) : Client () :=
  hub_store_op (OpSetItem key) ;;;
  modify (λ s, set_hub_zarr (<[key := data]> (hub_zarr s)) s).

(** [source[key]] on the local archive *)
Definition local_getitem (key : string) : Client Bytes :=
  let* archive := read local_zarr in
  match archive !! key with
  | Some data => ret data
  | None => throw (KeyError key)
  end.

(** Modelled from the spec: [zarr.copy_store], a routine of the zarr
    library that is not among the sources.  Every key of the source is
    visited, in sorted order, and the policy is applied to each key the
    destination already holds: [raise] aborts the whole copy on the first
    conflict and leaves what was written so far, [replace] overwrites
    unconditionally, [skip] leaves the destination entry untouched and
    proceeds.  The result counts the copied and the skipped keys and the
    bytes copied. *)
Fixpoint copy_keys (if_exists : ZarrConflictResolution) (keys : list string)
    (n_copied n_skipped n_bytes_copied : nat) : Client (nat * nat * nat) :=
  match keys with
  | [] => ret (n_copied, n_skipped, n_bytes_copied)
  | key :: rest =>
      let* do_copy :=
        match if_exists with
        | IfExistsReplace => ret true
        | IfExistsRaise =>
            let* present := hub_contains key in
            if present : bool then throw (CopyError key) else ret true
        | IfExistsSkip =>
            let* present := hub_contains key in
            ret (negb present)
        end in
      if do_copy : bool then
        let* data := local_getitem key in
        hub_setitem key data ;;;
        copy_keys if_exists rest (S n_copied) n_skipped (n_bytes_copied + length data)%nat
      else
        copy_keys if_exists rest n_copied (S n_skipped) n_bytes_copied
  end.

Definition copy_store (if_exists : ZarrConflictResolution) : Client (nat * nat * nat) :=
  let* source := read local_zarr in
  copy_keys if_exists (sorted_keys source) 0%nat 0%nat 0%nat.

(** *** [upload_dataset] *)

(** [owner or dataset.owner] *)
Definition or_else (a b : option string) : option string :=
  if truthy a then a else b.

(** [artifact_id] of [BaseArtifactModel], as the f-string prints it. *)
Definition artifact_id (owner : string) (name : option string) : string :=
  if truthy name
  then owner +:+ "/" +:+ sluggify B (default "" name)
  else "None".

Definition parquet_content_type : Headers :=
  [("Content-type", "application/vnd.apache.parquet")].

(** The body of the announce request. *)
Definition announce_json (parquet_size : nat) (parquet_md5 : string)
    (manifest : list Json) (access : string) (dataset_json : list (string * Json)) : Json :=
  JObj (dict_update
          [("tableContent",
            JObj [("size", JNum (Z.of_nat parquet_size));
                  ("fileType", JStr "parquet");
                  ("md5Sum", JStr parquet_md5)]);
           ("zarrContent", JArr manifest);
           ("access", JStr access)]
          dataset_json).

(** Step 1: announce the upload to the hub. *)
Definition announce (artifact : string) (parquet_size : nat) (parquet_md5 : string)
    (manifest : list Json) (access : string) (dataset_json : list (string * Json))
    (timeout : Timeout) : Client HubReply :=
  _base_request_to_hub ("/dataset/" +:+ artifact) "PUT"
    (mkKwargs None
       (Some (announce_json parquet_size parquet_md5 manifest access dataset_json))
       None (Some timeout) None).

(** Step 2: upload the parquet file. *)
Definition upload_table (response : HubReply) (buffer : Bytes) (timeout : Timeout)
  : Client () :=
  let* table_content := lift (reply_getitem "tableContent" response) in
  let* table_url_json := lift (getitem "url" table_content) in
  let* table_url := lift (as_str table_url_json) in
  (* create an empty PUT request to get the table content URL *)
  let* hub_response :=
    request "PUT" table_url false USE_CLIENT_DEFAULT
      (mkKwargs (Some parquet_content_type) None None (Some timeout) None) in
  if status_code hub_response =? 307 then
    (* follow the redirect to the signed URL *)
    let* hub_response_body := lift (response_json hub_response) in
    let* url_json := lift (getitem "url" hub_response_body) in
    let* method_json := lift (getitem "method" hub_response_body) in
    let* headers_json := lift (getitem "headers" hub_response_body) in
    let* url := lift (as_str url_json) in
    let* method := lift (as_str method_json) in
    let* headers := lift (as_headers headers_json) in
    let* bucket_response :=
      request method url false AuthNone
        (mkKwargs (Some (dict_update parquet_content_type headers)) None
                  (Some buffer) (Some timeout) None) in
    let* _ := lift (raise_for_status bucket_response) in
    ret ()
  else
    let* _ := lift (raise_for_status hub_response) in
    ret ().

Definition run_consolidate_metadata : Client () :=
  emit EvConsolidate ;;;
  λ s,
    let '(r, archive, w) := zarr_consolidate_metadata B (local_zarr s) (world s) in
    (r, set_local_zarr archive (set_world w s)).

(** Step 3: upload the associated Zarr archive, under the widened
    session timeout. *)
Definition upload_zarr (owner : string) (name : option string)
    (dataset_json : list (string * Json)) (timeout : Timeout)
    (if_exists : ZarrConflictResolution) : Client () :=
  tmp_attribute_change default_timeout set_default_timeout timeout
    (let* path_json := lift (getitem "zarrRootPath" (JObj dataset_json)) in
     let* path := lift (as_str path_json) in
     (* Copy the Zarr archive to the hub *)
     open_zarr_file owner (default "None" name) path "w" false ;;;
     (* Locally consolidate Zarr archive metadata *)
     run_consolidate_metadata ;;;
     let* zmetadata_content := local_getitem ".zmetadata" in
     hub_setitem ".zmetadata" zmetadata_content ;;;
     copy_store if_exists ;;;
     ret ()).

Definition upload_dataset (dataset : Dataset Table) (access : string)
    (timeout : option Timeout) (owner : option string)
    (if_exists : ZarrConflictResolution) : Client HubReply :=
  (* Check if a dataset license was specified prior to upload *)
  if negb (truthy (license dataset)) then
    throw (InvalidDatasetError
             "Please specify a supported license for this dataset prior to uploading to the Polaris Hub.")
  else
    (* Normalize timeout *)
    let* timeout :=
      match timeout with
      | None => read default_timeout
      | Some t => ret t
      end in
    (* Get the serialized data-model *)
    let* dataset_owner := lift (normalize_owner B (or_else owner (owner_of dataset))) in
    let dataset :=
      mkDataset (license dataset) (Some dataset_owner) (name_of dataset) (table dataset)
                (uses_zarr dataset) (_zarr_md5sum_manifest dataset) (md5sum dataset) in
    let dataset_json := model_dump B dataset in
    (* We will save the Zarr archive to the Hub as well *)
    let dataset_json :=
      dict_set "zarrRootPath" (JStr (fs_protocol B +:+ "://data.zarr")) dataset_json in
    (* Prepare the parquet file *)
    let buffer := to_parquet B (table dataset) in
    let parquet_size := length buffer in
    let parquet_md5 := md5_hexdigest B buffer in
    emit (EvTableSerialized parquet_size parquet_md5) ;;;
    (* Step 1: Upload meta-data *)
    let* response :=
      announce (artifact_id dataset_owner (name_of dataset)) parquet_size parquet_md5
               (_zarr_md5sum_manifest dataset) access dataset_json timeout in
    (* Step 2: Upload the parquet file *)
    upload_table response buffer timeout ;;;
    (* Step 3: Upload any associated Zarr archive *)
    (if uses_zarr dataset
     then upload_zarr dataset_owner (name_of dataset) dataset_json timeout if_exists
     else ret ()) ;;;
    ret response.

End Client.

(** ** Vocabulary of the statements *)

(** The requests of a transfer, as the client builds them. *)

(** The announce request: a [PUT] on the artifact whose body carries the
    size and digest of the serialised table and the checksum manifest. *)
Definition announce_request (artifact : string) (parquet_size : nat)
    (parquet_md5 : string) (manifest : list Json) (access : string)
    (dataset_json : list (string * Json)) (timeout : Timeout) : Request :=
  mkRequest "PUT" ("/dataset/" +:+ artifact) false USE_CLIENT_DEFAULT
    (mkKwargs None
       (Some (announce_json parquet_size parquet_md5 manifest access dataset_json))
       None (Some timeout) None).

(** The empty [PUT] that asks the hub where the table goes, and the
    [PUT] of the buffered table to the signed destination. *)
Definition table_put_request (table_url : string) (timeout : Timeout) : Request :=
  mkRequest "PUT" table_url false USE_CLIENT_DEFAULT
            (mkKwargs (Some parquet_content_type) None None (Some timeout) None).

Definition signed_put_request (method url : string) (headers : Headers)
    (buffer : Bytes) (timeout : Timeout) : Request :=
  mkRequest method url false AuthNone
            (mkKwargs (Some (dict_update parquet_content_type headers)) None
                      (Some buffer) (Some timeout) None).

(** The [GET] that follows a signed location in a download. *)
Definition signed_get_request (url : string) (headers : Headers) : Request :=
  mkRequest "GET" url false AuthNone (mkKwargs (Some headers) None None None None).

(** The base class attaches the session token to a request exactly when
    the token is not withheld and [auth] was left at the client default
    (authlib's [OAuth2Client.request]); httpx then sends no credentials
    for [auth=None]. *)
Definition sends_session_token (r : Request) : bool :=
  negb (req_withhold_token r) &&
  match req_auth r with
  | USE_CLIENT_DEFAULT => true
  | _ => false
  end.

Definition is_raise {A} (r : Result A) : Prop :=
  match r with
  | Raise _ => True
  | Ok _ => False
  end.

(** Step 2 sends nothing and fails, or sends the empty [PUT] alone, or
    sends the empty [PUT] followed by the [PUT] to the signed
    destination. *)
Inductive table_transfer (buffer : Bytes) (timeout : Timeout)
  : list Event → Result () → Prop :=
| transfer_not_started r :
    is_raise r → table_transfer buffer timeout [] r
| transfer_direct table_url r :
    table_transfer buffer timeout [EvRequest (table_put_request table_url timeout)] r
| transfer_signed table_url method url headers r :
    table_transfer buffer timeout
      [EvRequest (table_put_request table_url timeout);
       EvRequest (signed_put_request method url headers buffer timeout)] r.

(** A request of the tabular transfer has no JSON body. *)
Definition is_table_transfer (e : Event) : Prop :=
  match e with
  | EvRequest r => kw_json (req_kwargs r) = None
  | _ => False
  end.

(** The actions of the array transfer. *)
Definition is_array_transfer (e : Event) : Prop :=
  match e with
  | EvZarrOpen _ _ _ | EvConsolidate | EvStore _ => True
  | _ => False
  end.

Section Vocabulary.

Context {W : Type}.

(** [keeps_timeout m]: whatever [m] does and however it ends, the session
    default timeout is afterwards what it was before. *)
Definition keeps_timeout {A} (m : M (State W) A) : Prop :=
  ∀ s, default_timeout (m s).2 = default_timeout s.

(** [emits_only P m]: [m] only adds to the trace, and only actions that
    satisfy [P]. *)
Definition emits_only {A} (P : Event → Prop) (m : M (State W) A) : Prop :=
  ∀ s, ∃ evs, trace (m s).2 = trace s ++ evs ∧ Forall P evs.

End Vocabulary.

(** ** A scripted world

    A concrete collaborator used to run the client on examples: the
    network answers the requests with a prepared list of outcomes, the
    two token checks answer as the script says, and the storage layer
    never fails. *)

Record Script : Type := mkScript {
  replies : list (Result Response);
  hub_token_active : bool;
  identity_token_active : bool;
  issued_token : OAuth2Token
}.

Definition scripted_request (_ : Request) (w : Script) : Result Response * Script :=
  match replies w with
  | [] => (Raise (ConnectError "connection refused"), w)
  | r :: rest =>
      (r, mkScript rest (hub_token_active w) (identity_token_active w) (issued_token w))
  end.

Definition scripted : Backend Script Bytes :=
  {| super_request := scripted_request;
     super_ensure_active_token := λ _ w, (Ok (hub_token_active w), w);
     external_ensure_active_token := λ w, (Ok (identity_token_active w), w);
     fetch_token := λ w,
       (Ok (issued_token w),
        mkScript (replies w) true (identity_token_active w) (issued_token w));
     interactive_login := λ _ _ w,
       (Ok (), mkScript (replies w) (hub_token_active w) true (issued_token w));
     zarr_open := λ _ _ _ _ _ hub w, (Ok (), hub, w);
     zarr_consolidate_metadata := λ archive w,
       (Ok (), <[".zmetadata" := []]> archive, w);
     hub_store_fault := λ _ _ w, (None, w);
     to_parquet := λ t, t;
     md5_hexdigest := λ _, "9e107d9d372bb6826bd81d3542a419d6";
     json_dumps := λ _, "{}";
     decodes_as_text := forallb (λ b, Nat.ltb (Byte.to_nat b) 128);
     normalize_owner := λ o,
       match o with
       | Some slug => Ok slug
       | None => Raise (ValueError "owner")
       end;
     sluggify := λ n, n;
     fs_protocol := "polarisfs";
     model_dump := λ d, [("name", JStr (default "" (name_of d)))];
     read_parquet := λ content, Ok content;
     make_dataset := λ _ t, Ok (mkDataset None None None t false [] None);
     should_verify_checksum := λ _ _, false;
     verify_checksum := λ _, Ok ();
     set_md5sum := λ reported d,
       match reported with
       | JStr digest =>
           if Nat.eqb (String.length digest) 32
           then Ok (mkDataset (license d) (owner_of d) (name_of d) (table d)
                              (uses_zarr d) (_zarr_md5sum_manifest d) (Some reported))
           else Raise (ValueError "The checksum should be the 32-character hexdigest of a 128 bit MD5 hash.")
       | _ => Raise (TypeError "expected string or bytes-like object")
       end |}.

Definition initial (w : Script) : State Script :=
  mkState w (Some "hub-token") (TimeoutAll 10) ∅ ∅ [].

Definition reply (status : Z) (body : option Json) : Result Response :=
  Ok (mkResponse status [] [] body).

Definition unauthorized_body : Json :=
  JObj [("message", JStr "Unauthorized")].

(** The hub answers 401 to a request that carried a token. *)
Definition world_401 : Script :=
  mkScript [reply 401 (Some unauthorized_body)] true true "fresh-token".




(** The three situations of the token check. *)
Definition world_hub_active : Script := mkScript [] true true "fresh-token".
Definition world_signed_out : Script := mkScript [] false false "fresh-token".
Definition world_hub_expired : Script := mkScript [] false true "fresh-token".

(** What the hub says about a dataset, and where it sends the client for
    the table. *)
Definition metadata_body : Json :=
  JObj [("tableContent", JObj [("url", JStr "/storage/table.parquet")]);
        ("md5Sum", JStr "0cc175b9c0f1b6a831c399e269772661")].

Definition redirect_body : Json :=
  JObj [("url", JStr "https://bucket.example/signed");
        ("method", JStr "PUT");
        ("headers", JObj [("x-signature", JStr "abc")])].

Definition world_download : Script :=
  mkScript [reply 200 (Some metadata_body); reply 307 (Some redirect_body);
            Ok (mkResponse 200 [] [Byte.x50; Byte.x41; Byte.x52] None)]
           true true "fresh-token".

Definition world_download_refused : Script :=
  mkScript [reply 200 (Some metadata_body); reply 404 None] true true "fresh-token".

Definition world_upload : Script :=
  mkScript [reply 200 (Some metadata_body); reply 307 (Some redirect_body);
            reply 200 None]
           true true "fresh-token".

Definition sample_dataset : Dataset Bytes :=
  mkDataset (Some "CC-BY-4.0") (Some "acme") (Some "solubility")
            [Byte.x50; Byte.x41; Byte.x52] true [] None.

Definition unlicensed_dataset : Dataset Bytes :=
  mkDataset None (Some "acme") (Some "solubility")
            [Byte.x50; Byte.x41; Byte.x52] true [] None.

(** The hub answers the empty [PUT] of the table with a redirect. *)
Definition world_redirect : Script :=
  mkScript [reply 307 (Some redirect_body); reply 200 None] true true "fresh-token".

Definition sample_archive : Store :=
  <["a/0" := [Byte.x01]]> (<["b/0" := [Byte.x02]]> (<["c/0" := [Byte.x03]]> ∅)).

(** A destination that already holds one chunk, with other bytes. *)
Definition stale_archive : Store := {["b/0" := [Byte.xff]]}.

Definition copy_state : State Script :=
  mkState (mkScript [] true true "fresh-token") (Some "hub-token") (TimeoutAll 10)
          sample_archive stale_archive [].

Definition upload_state : State Script :=
  mkState world_upload (Some "hub-token") (TimeoutAll 10) sample_archive stale_archive [].

(** ** The other endpoints of the client *)

(** Python's [for x in value] on a decoded JSON value: the items of a
    list, the keys of an object, the characters of a string. *)
Definition json_iter (j : Json) : Result (list Json) :=
  match j with
  | JArr items => Ok items
  | JObj fields => Ok (JStr <$> fields.*1)
  | JStr s => Ok ((λ c, JStr (String c EmptyString)) <$> String.list_ascii_of_string s)
  | _ => Raise (TypeError "object is not iterable")
  end.

(** Python's [len(value)] on a decoded JSON value. *)
Definition json_len (j : Json) : Result nat :=
  match j with
  | JArr items => Ok (length items)
  | JObj fields => Ok (length fields)
  | JStr s => Ok (String.length s)
  | _ => Raise (TypeError "object has no len()")
  end.

(** A list comprehension [[f x for x in items]]: the first exception
    ends it. *)
Fixpoint comprehension {A C} (f : A → Result C) (items : list A) : Result (list C) :=
  match items with
  | [] => Ok []
  | x :: rest =>
      match f x with
      | Raise e => Raise e
      | Ok y =>
          match comprehension f rest with
          | Ok ys => Ok (y :: ys)
          | Raise e => Raise e
          end
      end
  end.

(** The query parameters of the two listings. *)
Definition listing_kwargs (limit offset : Z) : Kwargs :=
  mkKwargs None None None None (Some [("limit", limit); ("offset", offset)]).

(** [None] becomes [null] in a JSON body. *)
Definition json_of_option (o : option string) : Json :=
  match o with
  | Some s => JStr s
  | None => JNull
  end.

(** The fields of [BenchmarkResults] the client reads. *)
Record BenchmarkResults : Type := mkBenchmarkResults {
  results_owner : option string;
  benchmark_name : string;
  benchmark_owner : option string
}.

(** The fields of a [BenchmarkSpecification] the client reads. *)
Record BenchmarkUpload (Table : Type) : Type := mkBenchmarkUpload {
  spec_owner : option string;
  spec_name : option string;
  spec_dataset : Dataset Table
}.
Arguments mkBenchmarkUpload {Table}.
Arguments spec_owner {Table}.
Arguments spec_name {Table}.
Arguments spec_dataset {Table}.

(** What the benchmark endpoints need besides [Backend]: the pydantic
    models of benchmarks and results, and Python's [str] on a decoded
    value, which on a string is the string itself. *)
Record BenchmarkBackend (Table Benchmark : Type) : Type := mkBenchmarkBackend {
  (** [SingleTaskBenchmarkSpecification] (flag set) or
      [MultiTaskBenchmarkSpecification] on the response, the dataset in
      place *)
  make_benchmark : bool → Json → Dataset Table → Result Benchmark;
  (** [benchmark.dataset] *)
  benchmark_dataset : Benchmark → Dataset Table;
  (** [benchmark.verify_checksum()] *)
  benchmark_verify_checksum : Benchmark → Result ();
  (** [benchmark.md5sum = ...], the setter of the checksum mixin, which
      refuses a value that is no digest *)
  benchmark_with_md5sum : Json → Benchmark → Result Benchmark;
  (** [benchmark.model_dump(exclude={"dataset"}, exclude_none=True, by_alias=True)] *)
  benchmark_model_dump : BenchmarkUpload Table → list (string * Json);
  (** [results.model_dump(by_alias=True, exclude_none=True)] *)
  results_model_dump : BenchmarkResults → list (string * Json);
  (** [str(HubOwner(...))] on the owner entry of a listing *)
  hub_owner_str : Json → Result string;
  (** [str(value)], as an f-string applies it *)
  format_value : Json → string;
  format_value_str : ∀ s, format_value (JStr s) = s
}.
Arguments make_benchmark {Table Benchmark}.
Arguments benchmark_dataset {Table Benchmark}.
Arguments benchmark_verify_checksum {Table Benchmark}.
Arguments benchmark_with_md5sum {Table Benchmark}.
Arguments benchmark_model_dump {Table Benchmark}.
Arguments results_model_dump {Table Benchmark}.
Arguments hub_owner_str {Table Benchmark}.
Arguments format_value {Table Benchmark}.
Arguments format_value_str {Table Benchmark}.

Section Endpoints.

Context {W Table Benchmark : Type}.
Context (B : Backend W Table) (P : BenchmarkBackend Table Benchmark).

(** *** [artifact_id] of [BaseArtifactModel] ([_artifact.py]) *)


(** *** [_prepare_token_endpoint_body] *)

Definition token_exchange_grant : string :=
  "urn:ietf:params:oauth:grant-type:token-exchange".

(** [external_token] is [self.external_client.token]; [super_prepare] is
    the method of the base class. *)
Definition _prepare_token_endpoint_body {Body R}
    (super_prepare : Body → string → list (string * Json) → R)
    (external_token : option (list (string * Json)))
    (body : Body) (grant_type : string) (kwargs : list (string * Json)) : Result R :=
  if String.eqb grant_type token_exchange_grant then
    match external_token with
    | None => Raise (TypeError "'NoneType' object is not subscriptable")
    | Some fields =>
        match assoc "access_token" fields with
        | None => Raise (KeyError "access_token")
        | Some subject_token =>
            Ok (super_prepare body grant_type
                  (dict_update kwargs
                     [("subject_token", subject_token);
                      ("subject_token_type",
                       JStr "urn:ietf:params:oauth:token-type:access_token");
                      ("requested_token_type",
                       JStr "urn:ietf:params:oauth:token-type:jwt")]))
        end
    end
  else Ok (super_prepare body grant_type kwargs).

(** *** [list_datasets] and [list_benchmarks] *)

Definition list_datasets (limit offset : Z) : M (State W) (list Json) :=
  let* response := _base_request_to_hub B "/dataset" "GET" (listing_kwargs limit offset) in
  let* data := lift (reply_getitem "data" response) in
  let* entries := lift (json_iter data) in
  lift (comprehension (getitem "artifactId") entries).

Definition benchmark_label (bm : Json) : Result string :=
  match getitem "owner" bm with
  | Raise e => Raise e
  | Ok owner_json =>
      match hub_owner_str P owner_json with
      | Raise e => Raise e
      | Ok owner =>
          match getitem "name" bm with
          | Raise e => Raise e
          | Ok name => Ok (owner +:+ "/" +:+ format_value P name)
          end
      end
  end.

Definition list_benchmarks (limit offset : Z) : M (State W) (list string) :=
  let* response := _base_request_to_hub B "/benchmark" "GET" (listing_kwargs limit offset) in
  let* data := lift (reply_getitem "data" response) in
  let* entries := lift (json_iter data) in
  lift (comprehension benchmark_label entries).

(** *** [get_benchmark] *)

Definition get_benchmark (owner name : string) (verify_checksum_strategy : ChecksumStrategy)
  : M (State W) Benchmark :=
  let* response :=
    _base_request_to_hub B ("/benchmark/" +:+ owner +:+ "/" +:+ name) "GET" no_kwargs in
  let* dataset_json := lift (reply_getitem "dataset" response) in
  let* owner_json := lift (getitem "owner" dataset_json) in
  let* slug := lift (getitem "slug" owner_json) in
  let* dataset_json := lift (reply_getitem "dataset" response) in
  let* dataset_name := lift (getitem "name" dataset_json) in
  let* dataset :=
    get_dataset B (format_value P slug) (format_value P dataset_name)
                verify_checksum_strategy in
  let* fields :=
    lift (match response with
          | ReplyJson j => Ok j
          | ReplyRaw _ => Raise (TypeError "'Response' object does not support item assignment")
          end) in
  let* target_cols := lift (getitem "targetCols" fields) in
  let* n_targets := lift (json_len target_cols) in
  let* benchmark := lift (make_benchmark P (Nat.eqb n_targets 1) fields dataset) in
  if should_verify_checksum B verify_checksum_strategy (benchmark_dataset P benchmark) then
    lift (benchmark_verify_checksum P benchmark) ;;;
    ret benchmark
  else
    let* reported := lift (getitem "md5Sum" fields) in
    lift (benchmark_with_md5sum P reported benchmark).

(** *** [upload_results] *)


(** *** [upload_benchmark] *)



End Endpoints.

(** ** [BenchmarkResults] ([evaluate/_results.py]) *)

Definition ascii_letters : string :=
  "abcdefghijklmnopqrstuvwxyzABCDEFGHIJKLMNOPQRSTUVWXYZ".

Definition digits : string := "0123456789".

(** [string.ascii_letters + string.digits + "_-"] *)
Definition valid_characters : string := ascii_letters +:+ digits +:+ "_-".

(** [c in valid_characters] for a character [c]. *)
Definition char_in (c : Ascii.ascii) (s : string) : bool :=
  contains (String c EmptyString) s.

(** The validator of [name].  [InvalidResultError] is a class of
    [polaris.utils.errors]; it is carried as [OtherError]. *)
Definition _validate_name (v : option string) : Result (option string) :=
  match v with
  | None => Ok None
  | Some name =>
      if forallb (λ c, char_in c valid_characters) (String.list_ascii_of_string name)
      then Ok (Some name)
      else Raise (OtherError
                    ("InvalidResultError: `name` can only contain alpha-numeric characters, - or _, found "
                     +:+ name))
  end.

(** The name [__init__] gives to results that have none: the text of the
    creation time, after the user name when there is one.  [created_at]
    is [str(self._created_at)]. *)
Definition init_name (name user_name : option string) (created_at : string) : string :=
  match name with
  | Some given => given
  | None =>
      match user_name with
      | None => created_at
      | Some user => user +:+ "_" +:+ created_at
      end
  end.

(** ** [BaseArtifactModel._validate_version] ([_artifact.py]) *)

Inductive VersionValue (Version : Type) : Type :=
| VersionNone
| VersionStr (s : string)
| VersionObject (v : Version).
Arguments VersionNone {Version}.
Arguments VersionStr {Version} s.
Arguments VersionObject {Version} v.

Section ValidateVersion.

(** [packaging.version.Version]: the class, and its constructor on a
    string, which raises on a text that is no version. *)
Context {Version : Type} (parse_version : string → Result Version).

(** [installed] is [po.__version__]. *)
Definition _validate_version (installed : string) (value : VersionValue Version)
  : Result Version :=
  match parse_version installed with
  | Raise e => Raise e
  | Ok current_version =>
      let converted :=
        match value with
        | VersionNone => Ok (VersionObject current_version)
        | VersionStr s =>
            if negb (String.eqb s "dev") then
              match parse_version s with
              | Ok v => Ok (VersionObject v)
              | Raise e => Raise e
              end
            else Ok (VersionStr s)
        | VersionObject v => Ok (VersionObject v)
        end in
      match converted with
      | Raise e => Raise e
      | Ok (VersionObject v) => Ok v
      | Ok (VersionStr _) =>
          Raise (ValueError "Version must be a string or Version object. Got: <class 'str'>")
      | Ok VersionNone =>
          Raise (ValueError
                   "Version must be a string or Version object. Got: <class 'NoneType'>")
      end
  end.

End ValidateVersion.

(** ** [MinMaxSplit] ([splitter/_min_max_split.py]) *)

(** An element of the input [X]: a string, or something else. *)
Inductive Sample : Type :=
| SampleStr (smiles : string)
| SampleOther.

Definition is_str (x : Sample) : bool :=
  match x with
  | SampleStr _ => true
  | SampleOther => false
  end.

Definition sample_strings (X : list Sample) : list string :=
  omap (λ x, match x with SampleStr s => Some s | SampleOther => None end) X.

(** [np.setdiff1d(ar1, ar2)]: the sorted, unique values of [ar1] that are
    not in [ar2]. *)
Definition setdiff1d (ar1 ar2 : list nat) : list nat :=
  filter (λ x, x ∉ ar2) (merge_sort Nat.le (remove_dups ar1)).

Record MinMaxSplit (Size : Type) : Type := mkMinMaxSplit {
  n_splits : nat;
  _smiles : option (list string);
  test_size : Size;
  train_size : Size;
  random_state : option Z
}.
Arguments mkMinMaxSplit {Size}.
Arguments n_splits {Size}.
Arguments _smiles {Size}.
Arguments test_size {Size}.
Arguments train_size {Size}.
Arguments random_state {Size}.

Section MinMaxSplitter.

(** sklearn's [_validate_shuffle_split] (with the default test size of
    the base class), datamol's [to_mol], and the indices that datamol's
    [pick_diverse] picks.  The picker may raise (on a seed out of the
    range it takes), and with a negative seed it draws from a random
    source of its own: [G] is the state of that source. *)
Context {Size Mol G : Type}.
Context (validate_shuffle_split : nat → Size → Size → Result (nat * nat)).
Context (to_mol : string → Mol).
Context (pick_diverse : list Mol → nat → Z → G → Result (list nat) * G).

(** The loop of the generator, from the split numbered [i] on, with
    [remaining] splits to go: the pairs it yields, the exception that
    ends the iteration if there is one, and the random source
    afterwards. *)
Fixpoint iter_splits (mols : list Mol) (n_train n_samples : nat) (base_seed : Z)
    (i remaining : nat) (g : G) : list (list nat * list nat) * option Exn * G :=
  match remaining with
  | O => ([], None, g)
  | S remaining' =>
      match pick_diverse mols n_train (base_seed + Z.of_nat i) g with
      | (Raise e, g') => ([], Some e, g')
      | (Ok picked_samples, g') =>
          let '(rest, ending, g'') :=
            iter_splits mols n_train n_samples base_seed (S i) remaining' g' in
          ((picked_samples, setdiff1d (seq 0 n_samples) picked_samples) :: rest,
           ending, g'')
      end
  end.

(** The generator [_iter_indices], consumed to its end: the pairs it
    yields in order, and the exception that ends it, if any. *)
Definition _iter_indices (self : MinMaxSplit Size) (X : list Sample) (g : G)
  : list (list nat * list nat) * option Exn * G :=
  let n_samples := length X in
  match validate_shuffle_split n_samples (test_size self) (train_size self) with
  | Raise e => ([], Some e, g)
  | Ok (n_train, n_test) =>
      let is_smiles := forallb is_str X in
      match _smiles self, is_smiles with
      | None, false =>
          ([],
           Some (ValueError
                   "If the input is not a list of SMILES, you need to provide the SMILES to the constructor."),
           g)
      | given, _ =>
          let base_seed := default 0 (random_state self) in
          let smiles := if is_smiles then sample_strings X else default [] given in
          let mols := to_mol <$> smiles in
          iter_splits mols n_train n_samples base_seed 0 (n_splits self) g
      end
  end.

End MinMaxSplitter.

(** ** Vocabulary of the further statements *)

(** The failures that [request] reports as a lack of authorisation. *)
Definition auth_failure (e : Exn) : Prop :=
  e = MissingTokenError ∨ e = InvalidTokenError
  ∨ (∃ description, e = OAuthError description)
  ∨ (∃ response, e = HTTPStatusError response ∧ status_code response = 401).

(** ASCII letters, digits, underscore and dash, by character code. *)
Definition is_slug_char (c : Ascii.ascii) : Prop :=
  let n := Ascii.nat_of_ascii c in
  (48 ≤ n ≤ 57 ∨ 65 ≤ n ≤ 90 ∨ 97 ≤ n ≤ 122 ∨ n = 95 ∨ n = 45)%nat.

(** ** Further scripted worlds *)

(** The hub answers 200 with bytes that are no text. *)
Definition binary_200 : Response := mkResponse 200 [] [Byte.xff; Byte.xfe] None.

Definition world_200_binary : Script :=
  mkScript [Ok binary_200] true true "fresh-token".

(** The hub reports a checksum that is no digest. *)
Definition bad_digest_body : Json :=
  JObj [("tableContent", JObj [("url", JStr "/storage/table.parquet")]);
        ("md5Sum", JStr "xyz")].

Definition null_headers_body : Json :=
  JObj [("url", JStr "https://bucket.example/signed"); ("headers", JNull)].

Definition world_bad_digest : Script :=
  mkScript [reply 200 (Some bad_digest_body); reply 307 (Some null_headers_body);
            Ok (mkResponse 200 [] [Byte.x50; Byte.x41; Byte.x52] None)]
           true true "fresh-token".



(** The network fails on the certificate of the hub. *)
Definition world_ssl : Script :=
  mkScript [Raise (ConnectError
                     "[SSL: CERTIFICATE_VERIFY_FAILED] unable to get local issuer certificate")]
           true true "fresh-token".

Definition listing_body : Json :=
  JObj [("data", JArr [JObj [("artifactId", JStr "acme/solubility")];
                       JObj [("artifactId", JStr "acme/permeability")]])].

Definition world_listing : Script :=
  mkScript [reply 200 (Some listing_body)] true true "fresh-token".





(** A benchmark as the scripted collaborator builds it. *)
Record SampleBenchmark : Type := mkSampleBenchmark {
  sample_single_task : bool;
  sample_fields : Json;
  sample_benchmark_dataset : Dataset Bytes;
  sample_md5sum : option Json
}.

Definition scripted_benchmarks : BenchmarkBackend Bytes SampleBenchmark :=
  {| make_benchmark := λ single fields dataset,
       Ok (mkSampleBenchmark single fields dataset None);
     benchmark_dataset := sample_benchmark_dataset;
     benchmark_verify_checksum := λ _, Ok ();
     benchmark_with_md5sum := λ reported b,
       match reported with
       | JStr digest =>
           if Nat.eqb (String.length digest) 32
           then Ok (mkSampleBenchmark (sample_single_task b) (sample_fields b)
                                      (sample_benchmark_dataset b) (Some reported))
           else Raise (ValueError "The checksum should be the 32-character hexdigest of a 128 bit MD5 hash.")
       | _ => Raise (TypeError "expected string or bytes-like object")
       end;
     benchmark_model_dump := λ b,
       [("name", json_of_option (spec_name b)); ("access", JStr "private")];
     results_model_dump := λ r, [("benchmarkName", JStr (benchmark_name r))];
     hub_owner_str := λ j,
       match getitem "slug" j with
       | Ok (JStr slug) => Ok slug
       | Ok _ => Raise (TypeError "slug")
       | Raise e => Raise e
       end;
     format_value := λ j, match j with JStr text => text | _ => "None" end;
     format_value_str := λ _, eq_refl |}.

Definition benchmark_body : Json :=
  JObj [("name", JStr "solubility-benchmark");
        ("dataset", JObj [("owner", JObj [("slug", JStr "acme")]);
                          ("name", JStr "solubility")]);
        ("targetCols", JArr [JStr "logS"]);
        ("md5Sum", JStr "92eb5ffee6ae2fec3ad71c777531578f")].

Definition world_benchmark : Script :=
  mkScript [reply 200 (Some benchmark_body);
            reply 200 (Some metadata_body); reply 307 (Some redirect_body);
            Ok (mkResponse 200 [] [Byte.x50; Byte.x41; Byte.x52] None)]
           true true "fresh-token".


Definition unnamed_dataset : Dataset Bytes :=
  mkDataset (Some "CC-BY-4.0") (Some "acme") None
            [Byte.x50; Byte.x41; Byte.x52] false [] None.

Definition sample_dataset_json : list (string * Json) :=
  [("zarrRootPath", JStr "polarisfs://data.zarr")].

(** A splitter on three molecules: the validation keeps one sample for
    the test set; the picker takes the first positions, rotated by the
    seed, draws the rotation from its random source (a counter) when
    the seed is negative, and refuses a seed of 32 bits or more. *)
Definition sample_validate_shuffle_split (n_samples : nat) (_ _ : ())
  : Result (nat * nat) :=
  Ok ((n_samples - 1)%nat, 1%nat).

Definition sample_pick_diverse (mols : list string) (npick : nat) (seed : Z) (g : nat)
  : Result (list nat) * nat :=
  if seed <? 0 then
    (Ok ((λ i, ((i + g) mod length mols)%nat) <$> seq 0 npick), S g)
  else if 4294967296 <=? seed then
    (Raise (OtherError "OverflowError: Python int too large to convert to C long"), g)
  else
    (Ok ((λ i, Z.to_nat ((Z.of_nat i + seed) mod Z.of_nat (length mols)))
           <$> seq 0 npick), g).

Definition sample_splitter : MinMaxSplit () := mkMinMaxSplit 2 None () () None.

Definition sample_molecules : list Sample :=
  [SampleStr "C"; SampleStr "CC"; SampleStr "CCO"].

(** ** The order of keys *)

Lemma string_leb_trans a b c :
  String.leb a b = true → String.leb b c = true → String.leb a c = true.
Proof.
  unfold String.leb. revert b c.
  induction a as [|x a IH]; intros [|y b] [|z c]; simpl; try done.
  destruct (Ascii.compare x y) eqn:Hxy; destruct (Ascii.compare y z) eqn:Hyz; try done.
  - pose proof (Ascii.compare_eq_iff _ _ Hxy) as ->. rewrite Hyz. apply IH.
  - pose proof (Ascii.compare_eq_iff _ _ Hxy) as ->. by rewrite Hyz.
  - pose proof (Ascii.compare_eq_iff _ _ Hyz) as <-. by rewrite Hxy.
  - unfold Ascii.compare in *.
    apply N.compare_lt_iff in Hxy. apply N.compare_lt_iff in Hyz.
    assert (N.compare (Ascii.N_of_ascii x) (Ascii.N_of_ascii z) = Lt) as ->; [|done].
    apply N.compare_lt_iff. by etrans.
Qed.

#[global] Instance key_le_transitive : Transitive key_le.
Proof. intros a b c. apply string_leb_trans. Qed.

#[global] Instance key_le_total : Total key_le.
Proof. intros a b. apply String.leb_total. Qed.

#[global] Instance key_le_antisymm : AntiSymm (=) key_le.
Proof. intros a b. apply String.leb_antisym. Qed.

Lemma sorted_keys_elem_of (m : Store) key :
  key ∈ sorted_keys m ↔ is_Some (m !! key).
Proof.
  unfold sorted_keys. rewrite merge_sort_Permutation, list_elem_of_fmap. split.
  - intros ([k data] & -> & Hin). apply elem_of_map_to_list in Hin. by exists data.
  - intros [data Hdata]. exists (key, data). split; [done|].
    by apply elem_of_map_to_list.
Qed.



(** ** Facts about the client *)

Section ClientFacts.

Context {W Table : Type} (B : Backend W Table).

(** *** The request wrapper *)

(** Whatever happens, [request] hands exactly one call to the base class. *)
Lemma request_trace method url withhold auth kwargs (s : State W) :
  trace (request B method url withhold auth kwargs s).2
  = trace s ++ [EvRequest (mkRequest method url withhold auth kwargs)].
Proof.
  unfold request, try_except, call_super_request, bind, emit, on_world; simpl.
  destruct (super_request B _ (world s)) as [[response|error] w]; simpl; [done|].
  destruct error; simpl; try done.
  - destruct (contains _ _); done.
  - destruct (negb _); done.
Qed.

(** A response handed back by the base class passes through the wrapper
    untouched, whatever its status. *)
Lemma request_returns_response method url withhold auth kwargs (s : State W) response w :
  super_request B (mkRequest method url withhold auth kwargs) (world s) = (Ok response, w) →
  request B method url withhold auth kwargs s
  = (Ok response, set_world w (record (EvRequest (mkRequest method url withhold auth kwargs)) s)).
Proof.
  intros Hsuper.
  unfold request, try_except, call_super_request, bind, emit, on_world; simpl.
  by rewrite Hsuper.
Qed.

(** A status error raised inside the base class with status 401 becomes
    the authentication error. *)
Lemma request_status_error_401 method url withhold auth kwargs (s : State W) response w :
  super_request B (mkRequest method url withhold auth kwargs) (world s)
  = (Raise (HTTPStatusError response), w) →
  status_code response = 401 →
  (request B method url withhold auth kwargs s).1
  = Raise (PolarisUnauthorizedError (HTTPStatusError response)).
Proof.
  intros Hsuper H401.
  unfold request, try_except, call_super_request, bind, emit, on_world; simpl.
  rewrite Hsuper; simpl. by rewrite H401.
Qed.

(** A missing or invalid token, or an error of the OAuth exchange,
    becomes the authentication error. *)
Lemma request_token_error method url withhold auth kwargs (s : State W) error w :
  super_request B (mkRequest method url withhold auth kwargs) (world s) = (Raise error, w) →
  error = MissingTokenError ∨ error = InvalidTokenError
  ∨ (∃ description, error = OAuthError description) →
  (request B method url withhold auth kwargs s).1 = Raise (PolarisUnauthorizedError error).
Proof.
  intros Hsuper Herror.
  unfold request, try_except, call_super_request, bind, emit, on_world; simpl.
  rewrite Hsuper. by destruct Herror as [-> | [-> | [description ->]]].
Qed.

(** A status error raised inside the base class with another status is
    raised again as it is. *)
Lemma request_status_error_other method url withhold auth kwargs (s : State W) response w :
  super_request B (mkRequest method url withhold auth kwargs) (world s)
  = (Raise (HTTPStatusError response), w) →
  status_code response ≠ 401 →
  (request B method url withhold auth kwargs s).1 = Raise (HTTPStatusError response).
Proof.
  intros Hsuper Hother.
  unfold request, try_except, call_super_request, bind, emit, on_world; simpl.
  rewrite Hsuper; simpl. apply Z.eqb_neq in Hother. by rewrite Hother.
Qed.

(** *** [_base_request_to_hub] *)



(** C1, on the path through the hub-request helper.  The base class hands
    back a response with status 401 like any other response: nothing is
    raised inside [request], so its 401 case is not reached, and
    [_base_request_to_hub] wraps the decoded body into [PolarisHubError],
    not into [PolarisUnauthorizedError]. *)
Theorem hub_request_401_raises_hub_error method url kwargs (s : State W) response w payload :
  super_request B (mkRequest method url false USE_CLIENT_DEFAULT kwargs) (world s)
  = (Ok response, w) →
  status_code response = 401 →
  resp_json response = Some payload →
  (_base_request_to_hub B url method kwargs s).1
  = Raise (PolarisHubError (hub_error_message B payload) (HTTPStatusError response)).
Proof.
  intros Hsuper H401 Hbody.
  unfold _base_request_to_hub, bind.
  rewrite (request_returns_response _ _ _ _ _ _ _ _ Hsuper).
  unfold raise_for_status, is_success, response_json. rewrite H401, Hbody. reflexivity.
Qed.

(** *** [ensure_active_token] *)

(** C3. An active hub token is accepted as it is; an inactive one with an
    inactive identity token is refused; an inactive one with an active
    identity token is replaced by a freshly fetched hub token, which
    becomes the session token. *)
Theorem ensure_active_token_cases tok (s : State W) :
  (∀ w, super_ensure_active_token B tok (world s) = (Ok true, w) →
     ensure_active_token B tok s = (Ok true, set_world w s))
  ∧ (∀ w w',
       super_ensure_active_token B tok (world s) = (Ok false, w) →
       external_ensure_active_token B w = (Ok false, w') →
       ensure_active_token B tok s = (Ok false, set_world w' s))
  ∧ (∀ w w' w'' fresh,
       super_ensure_active_token B tok (world s) = (Ok false, w) →
       external_ensure_active_token B w = (Ok true, w') →
       fetch_token B w' = (Ok fresh, w'') →
       ensure_active_token B tok s
       = (Ok true, set_token (Some fresh) (set_world w'' s))).
Proof.
  unfold ensure_active_token, bind, on_world, modify, ret.
  repeat split.
  - intros w ->. reflexivity.
  - intros w w' -> . simpl. intros ->. reflexivity.
  - intros w w' w'' fresh ->. simpl. intros ->. simpl. intros ->. reflexivity.
Qed.

(** *** [open_zarr_file] *)

Lemma is_read_mode_false mode : mode ≠ "r" → mode ≠ "r+" → is_read_mode mode = false.
Proof.
  intros Hr Hrplus. unfold is_read_mode.
  apply orb_false_intro; by apply String.eqb_neq.
Qed.

(** C8. Asking for consolidated metadata in a mode other than ['r'] and
    ['r+'] raises [ValueError] at once: the state, and with it the world
    and the trace, is left as it was. *)
Theorem open_zarr_file_consolidated_mode owner name path mode (s : State W) :
  mode ≠ "r" → mode ≠ "r+" →
  open_zarr_file B owner name path mode true s
  = (Raise (ValueError "Consolidated archives can only be used with 'r' or 'r+' mode."), s).
Proof.
  intros Hr Hrplus. unfold open_zarr_file.
  rewrite (is_read_mode_false mode Hr Hrplus). reflexivity.
Qed.

(** *** [get_dataset] *)

(** C9. When the answer to the table-content request is neither a 307 nor
    a success, the download stops there with a [PolarisHubError]. *)
Theorem get_dataset_no_redirect owner name strategy (s s1 s2 : State W)
    response table_content table_url storage_response :
  _base_request_to_hub B ("/dataset/" +:+ owner +:+ "/" +:+ name) "GET" no_kwargs s
  = (Ok response, s1) →
  reply_getitem "tableContent" response = Ok table_content →
  getitem "url" table_content = Ok (JStr table_url) →
  get B table_url USE_CLIENT_DEFAULT None s1 = (Ok storage_response, s2) →
  status_code storage_response ≠ 307 →
  is_success storage_response = false →
  get_dataset B owner name strategy s
  = (Raise (PolarisHubError "Could not get signed URL from Polaris Hub."
                            (HTTPStatusError storage_response)), s2).
Proof.
  intros Hmeta Hcontent Hurl Hstorage Hnot307 Hfailed.
  unfold get_dataset, bind, lift, raise_for_status.
  rewrite Hmeta, Hcontent, Hurl. simpl. rewrite Hstorage.
  apply Z.eqb_neq in Hnot307. rewrite Hnot307, Hfailed. reflexivity.
Qed.

(** *** [upload_dataset]: the license check *)

Lemma upload_dataset_falsy_license dataset access timeout owner if_exists (s : State W) :
  truthy (license dataset) = false →
  ∃ message,
    upload_dataset B dataset access timeout owner if_exists s
    = (Raise (InvalidDatasetError message), s).
Proof.
  intros Hlicense. unfold upload_dataset. rewrite Hlicense. simpl. by eexists.
Qed.

(** C10. Without a license the upload raises [InvalidDatasetError] and
    leaves the state as it was: nothing reached the hub, and the trace
    has no new action. *)
Theorem upload_dataset_without_license dataset access timeout owner if_exists (s : State W) :
  license dataset = None →
  ∃ message,
    upload_dataset B dataset access timeout owner if_exists s
    = (Raise (InvalidDatasetError message), s).
Proof.
  intros Hlicense. unfold upload_dataset. rewrite Hlicense. simpl. by eexists.
Qed.

(** *** [upload_dataset]: the three steps

    Past the license check and the normalisation of the owner, an upload
    is the serialisation of the table followed by the three steps, run on
    the same buffer, timeout and serialised metadata. *)
Lemma upload_dataset_steps dataset access timeout owner if_exists (s : State W)
    dataset_owner :
  truthy (license dataset) = true →
  normalize_owner B (or_else owner (owner_of dataset)) = Ok dataset_owner →
  let effective_timeout := default (default_timeout s) timeout in
  let buffer := to_parquet B (table dataset) in
  let dataset_json :=
    dict_set "zarrRootPath" (JStr (fs_protocol B +:+ "://data.zarr"))
      (model_dump B
         (mkDataset (license dataset) (Some dataset_owner) (name_of dataset)
                    (table dataset) (uses_zarr dataset) (_zarr_md5sum_manifest dataset)
                    (md5sum dataset))) in
  upload_dataset B dataset access timeout owner if_exists s
  = (let* response :=
       announce B (artifact_id B dataset_owner (name_of dataset)) (length buffer)
                (md5_hexdigest B buffer) (_zarr_md5sum_manifest dataset) access
                dataset_json effective_timeout in
     upload_table B response buffer effective_timeout ;;;
     (if uses_zarr dataset
      then upload_zarr B dataset_owner (name_of dataset) dataset_json effective_timeout
             if_exists
      else ret ()) ;;;
     ret response)
      (record (EvTableSerialized (length buffer) (md5_hexdigest B buffer)) s).
Proof.
  intros Hlicense Howner. unfold upload_dataset. rewrite Hlicense. simpl negb. cbv iota.
  destruct timeout as [t|]; simpl default.
  all: unfold bind at 1; first [unfold ret at 1 | unfold read at 1]; cbv beta iota.
  all: unfold bind at 1, lift at 1; rewrite Howner; cbv beta iota.
  all: unfold bind at 1, emit at 1; reflexivity.
Qed.

(** *** The session default timeout *)

Lemma keeps_ret {A} (a : A) : keeps_timeout (W := W) (ret a).
Proof. by intros s. Qed.

Lemma keeps_throw {A} e : keeps_timeout (W := W) (throw (A := A) e).
Proof. by intros s. Qed.

Lemma keeps_lift {A} (r : Result A) : keeps_timeout (W := W) (lift r).
Proof. by intros s. Qed.

Lemma keeps_read {A} (f : State W → A) : keeps_timeout (W := W) (read f).
Proof. by intros s. Qed.

Lemma keeps_emit e : keeps_timeout (W := W) (emit e).
Proof. by intros s. Qed.

Lemma keeps_on_world {A} (f : W → Result A * W) : keeps_timeout (W := W) (on_world f).
Proof. intros s. unfold on_world. by destruct (f (world s)). Qed.

Lemma keeps_modify f :
  (∀ s, default_timeout (f s) = default_timeout s) → keeps_timeout (W := W) (modify f).
Proof. intros Hf s. apply Hf. Qed.

Lemma keeps_bind {A C} (m : M (State W) A) (k : A → M (State W) C) :
  keeps_timeout m → (∀ a, keeps_timeout (W := W) (k a)) → keeps_timeout (W := W) (bind m k).
Proof.
  intros Hm Hk s. unfold bind. specialize (Hm s).
  destruct (m s) as [[a|e] s']; simpl in *; [|done].
  by rewrite Hk.
Qed.

Lemma keeps_try_except {A} (body : M (State W) A) handler :
  keeps_timeout body → (∀ e, keeps_timeout (W := W) (handler e)) →
  keeps_timeout (W := W) (try_except body handler).
Proof.
  intros Hbody Hhandler s. unfold try_except. specialize (Hbody s).
  destruct (body s) as [[a|e] s']; simpl in *; [done|].
  by rewrite Hhandler.
Qed.

(** The scoped override restores the prior value whatever the body does,
    even if the body itself were to change the setting. *)
Lemma keeps_tmp_attribute_change {A} value (body : M (State W) A) :
  keeps_timeout (W := W) (tmp_attribute_change default_timeout set_default_timeout value body).
Proof.
  intros s. unfold tmp_attribute_change.
  by destruct (body (set_default_timeout value s)).
Qed.

(** Inside the scope the override is in force: the body starts from a
    state whose default timeout is the new value. *)
Lemma tmp_attribute_change_applies {A} value (body : M (State W) A) s :
  (tmp_attribute_change default_timeout set_default_timeout value body s).1
  = (body (set_default_timeout value s)).1
  ∧ default_timeout (set_default_timeout value s) = value.
Proof.
  unfold tmp_attribute_change.
  by destruct (body (set_default_timeout value s)).
Qed.

Create HintDb frame.

#[local] Hint Resolve keeps_ret keeps_throw keeps_lift keeps_read keeps_emit
  keeps_on_world keeps_tmp_attribute_change : frame.

Ltac frame_step :=
  lazymatch goal with
  | |- keeps_timeout (bind _ _) => apply keeps_bind; [|intros ?]
  | |- keeps_timeout (try_except _ _) => apply keeps_try_except; [|intros ?]
  | |- keeps_timeout (modify _) => apply keeps_modify; intros ?; reflexivity
  | |- keeps_timeout _ => solve [auto with frame]
  end.

Ltac frame := repeat frame_step.

Lemma keeps_request method url withhold auth kwargs :
  keeps_timeout (W := W) (request B method url withhold auth kwargs).
Proof.
  unfold request, call_super_request. frame.
  destruct e; try destruct (contains _ _); try destruct (negb _); frame.
Qed.

Lemma keeps_base_request_to_hub url method kwargs :
  keeps_timeout (W := W) (_base_request_to_hub B url method kwargs).
Proof.
  unfold _base_request_to_hub. frame; [apply keeps_request|].
  destruct (raise_for_status a); [destruct (response_json B a) as [j|[]]|]; frame.
  destruct (_ =? _); [|destruct (response_json B a)]; frame.
Qed.

Lemma keeps_upload_table response buffer timeout :
  keeps_timeout (W := W) (upload_table B response buffer timeout).
Proof.
  unfold upload_table. frame; [apply keeps_request|].
  destruct (_ =? _); frame. apply keeps_request.
Qed.

(** C6. However an upload ends, with a reply or with an exception raised
    at any step, the session default timeout is afterwards what it was
    before the call. *)
Theorem upload_dataset_restores_timeout dataset access timeout owner if_exists (s : State W) :
  default_timeout (upload_dataset B dataset access timeout owner if_exists s).2
  = default_timeout s.
Proof.
  revert s. change (keeps_timeout (W := W) (upload_dataset B dataset access timeout owner if_exists)).
  unfold upload_dataset, announce, upload_zarr.
  destruct (negb _); [frame|].
  frame.
  - destruct timeout; frame.
  - apply keeps_base_request_to_hub.
  - apply keeps_upload_table.
  - destruct (uses_zarr _); frame.
Qed.

(** *** What each step of a transfer sends *)

Lemma base_request_to_hub_trace url method kwargs (s : State W) :
  trace (_base_request_to_hub B url method kwargs s).2
  = trace s ++ [EvRequest (mkRequest method url false USE_CLIENT_DEFAULT kwargs)].
Proof.
  unfold _base_request_to_hub, bind.
  pose proof (request_trace method url false USE_CLIENT_DEFAULT kwargs s) as Htrace.
  destruct (request B method url false USE_CLIENT_DEFAULT kwargs s) as [[response|e] s1];
    simpl in *; [|done].
  destruct (raise_for_status response).
  - by destruct (response_json B response) as [j|[]].
  - destruct (_ =? _); [done|]. by destruct (response_json B response).
Qed.

Lemma load_from_signed_url_trace {A} url (load_fn : Bytes → Result A) headers (s : State W) :
  trace (_load_from_signed_url B url load_fn headers s).2
  = trace s ++ [EvRequest (mkRequest "GET" url false AuthNone
                                     (mkKwargs headers None None None None))].
Proof.
  unfold _load_from_signed_url, get, bind, lift.
  pose proof (request_trace "GET" url false AuthNone
                (mkKwargs headers None None None None) s) as Htrace.
  destruct (request B "GET" url false AuthNone _ s) as [[response|e] s1];
    simpl in *; [|done].
  by destruct (raise_for_status response).
Qed.

Lemma upload_table_trace response buffer timeout (s : State W) :
  ∃ evs,
    trace (upload_table B response buffer timeout s).2 = trace s ++ evs
    ∧ table_transfer buffer timeout evs (upload_table B response buffer timeout s).1.
Proof.
  unfold upload_table, bind, lift.
  destruct (reply_getitem "tableContent" response) as [table_content|e]; simpl;
    [|exists []; split; [by rewrite app_nil_r | by constructor]].
  destruct (getitem "url" table_content) as [table_url_json|e]; simpl;
    [|exists []; split; [by rewrite app_nil_r | by constructor]].
  destruct (as_str table_url_json) as [table_url|e]; simpl;
    [|exists []; split; [by rewrite app_nil_r | by constructor]].
  pose proof (request_trace "PUT" table_url false USE_CLIENT_DEFAULT
                (mkKwargs (Some parquet_content_type) None None (Some timeout) None) s)
    as Hfirst.
  destruct (request B "PUT" table_url false USE_CLIENT_DEFAULT _ s)
    as [[hub_response|e] s1]; simpl in *;
    [|eexists; split; [exact Hfirst | apply transfer_direct]].
  destruct (status_code hub_response =? 307).
  - destruct (response_json B hub_response) as [body|]; simpl;
      [|eexists; split; [exact Hfirst | apply transfer_direct]].
    destruct (getitem "url" body) as [url_json|e]; simpl;
      [|eexists; split; [exact Hfirst | apply transfer_direct]].
    destruct (getitem "method" body) as [method_json|e]; simpl;
      [|eexists; split; [exact Hfirst | apply transfer_direct]].
    destruct (getitem "headers" body) as [headers_json|e]; simpl;
      [|eexists; split; [exact Hfirst | apply transfer_direct]].
    destruct (as_str url_json) as [url|e]; simpl;
      [|eexists; split; [exact Hfirst | apply transfer_direct]].
    destruct (as_str method_json) as [method|e]; simpl;
      [|eexists; split; [exact Hfirst | apply transfer_direct]].
    destruct (as_headers headers_json) as [headers|e]; simpl;
      [|eexists; split; [exact Hfirst | apply transfer_direct]].
    pose proof (request_trace method url false AuthNone
                  (mkKwargs (Some (dict_update parquet_content_type headers)) None
                            (Some buffer) (Some timeout) None) s1) as Hsecond.
    destruct (request B method url false AuthNone _ s1)
      as [[bucket_response|e] s2]; simpl in *.
    + exists [EvRequest (table_put_request table_url timeout);
              EvRequest (signed_put_request method url headers buffer timeout)].
      split; [|apply transfer_signed].
      destruct (raise_for_status bucket_response); simpl;
        rewrite Hsecond, Hfirst, <- app_assoc; reflexivity.
    + exists [EvRequest (table_put_request table_url timeout);
              EvRequest (signed_put_request method url headers buffer timeout)].
      split; [|apply transfer_signed].
      rewrite Hsecond, Hfirst, <- app_assoc; reflexivity.
  - eexists; split; [|apply transfer_direct].
    destruct (raise_for_status hub_response); simpl; exact Hfirst.
Qed.

(** *** Actions of the array transfer *)

Lemma emits_only_silent {A} P (m : M (State W) A) :
  (∀ s, trace (m s).2 = trace s) → emits_only (W := W) P m.
Proof. intros Hm s. exists []. by rewrite app_nil_r. Qed.

Lemma emits_only_emit (P : Event → Prop) e : P e → emits_only (W := W) P (emit e).
Proof. intros He s. exists [e]. split; [done|]. by constructor. Qed.

Lemma emits_only_bind {A C} P (m : M (State W) A) (k : A → M (State W) C) :
  emits_only (W := W) P m → (∀ a, emits_only (W := W) P (k a)) → emits_only (W := W) P (bind m k).
Proof.
  intros Hm Hk s. unfold bind. destruct (Hm s) as (evs1 & Htrace1 & Hevs1).
  destruct (m s) as [[a|e] s1]; simpl in *; [|by exists evs1].
  destruct (Hk a s1) as (evs2 & Htrace2 & Hevs2).
  exists (evs1 ++ evs2). split.
  - by rewrite Htrace2, Htrace1, app_assoc.
  - by apply Forall_app.
Qed.

Lemma emits_only_try_except {A} P (body : M (State W) A) handler :
  emits_only (W := W) P body → (∀ e, emits_only (W := W) P (handler e)) →
  emits_only (W := W) P (try_except body handler).
Proof.
  intros Hbody Hhandler s. unfold try_except.
  destruct (Hbody s) as (evs1 & Htrace1 & Hevs1).
  destruct (body s) as [[a|e] s1]; simpl in *; [by exists evs1|].
  destruct (Hhandler e s1) as (evs2 & Htrace2 & Hevs2).
  exists (evs1 ++ evs2). split.
  - by rewrite Htrace2, Htrace1, app_assoc.
  - by apply Forall_app.
Qed.

Lemma emits_only_tmp_attribute_change {A} P value (body : M (State W) A) :
  emits_only (W := W) P body →
  emits_only (W := W) P (tmp_attribute_change default_timeout set_default_timeout value body).
Proof.
  intros Hbody s. unfold tmp_attribute_change.
  destruct (Hbody (set_default_timeout value s)) as (evs & Htrace & Hevs).
  destruct (body (set_default_timeout value s)) as [r s1]; simpl in *.
  by exists evs.
Qed.

Ltac silent :=
  apply emits_only_silent; intros ?; try reflexivity.

Ltac emits_step :=
  lazymatch goal with
  | |- emits_only _ (bind _ _) => apply emits_only_bind; [|intros ?]
  | |- emits_only _ (try_except _ _) => apply emits_only_try_except; [|intros ?]
  | |- emits_only _ (emit _) => apply emits_only_emit; exact I
  | |- emits_only _ (ret _) => silent
  | |- emits_only _ (throw _) => silent
  | |- emits_only _ (lift _) => silent
  | |- emits_only _ (read _) => silent
  | |- emits_only _ (modify _) => silent
  end.

Lemma emits_only_hub_store_op op : emits_only (W := W) is_array_transfer (hub_store_op B op).
Proof.
  unfold hub_store_op. emits_step; [emits_step|].
  silent. by destruct (hub_store_fault B op _ _) as [[e|] w].
Qed.

Lemma emits_only_hub_contains key : emits_only (W := W) is_array_transfer (hub_contains B key).
Proof.
  unfold hub_contains. repeat emits_step. apply emits_only_hub_store_op.
Qed.

Lemma emits_only_hub_setitem key data :
  emits_only (W := W) is_array_transfer (hub_setitem B key data).
Proof.
  unfold hub_setitem. repeat emits_step. apply emits_only_hub_store_op.
Qed.

Lemma emits_only_local_getitem key : emits_only (W := W) is_array_transfer (local_getitem key).
Proof.
  unfold local_getitem. repeat emits_step. destruct (_ !! _); emits_step.
Qed.

Lemma emits_only_copy_keys if_exists keys n_copied n_skipped n_bytes :
  emits_only (W := W) is_array_transfer (copy_keys B if_exists keys n_copied n_skipped n_bytes).
Proof.
  revert n_copied n_skipped n_bytes.
  induction keys as [|key rest IH]; intros n_copied n_skipped n_bytes; simpl.
  - emits_step.
  - emits_step.
    + destruct if_exists; repeat emits_step;
        try apply emits_only_hub_contains.
      destruct a; emits_step.
    + destruct a; [|apply IH].
      repeat emits_step; [apply emits_only_local_getitem|apply emits_only_hub_setitem|apply IH].
Qed.

Lemma emits_only_copy_store if_exists :
  emits_only (W := W) is_array_transfer (copy_store B if_exists).
Proof. unfold copy_store. emits_step; [emits_step|]. apply emits_only_copy_keys. Qed.

Lemma emits_only_run_zarr_open fs path mode consolidated :
  emits_only (W := W) is_array_transfer (run_zarr_open B fs path mode consolidated).
Proof.
  silent. unfold run_zarr_open. by destruct (zarr_open B _ _ _ _ _ _ _) as [[r hub] w].
Qed.

Lemma emits_only_open_zarr_file owner name path mode as_consolidated :
  emits_only (W := W) is_array_transfer (open_zarr_file B owner name path mode as_consolidated).
Proof.
  unfold open_zarr_file. destruct (_ && _); repeat emits_step.
  apply emits_only_run_zarr_open.
Qed.

Lemma emits_only_run_consolidate_metadata :
  emits_only (W := W) is_array_transfer (run_consolidate_metadata B).
Proof.
  unfold run_consolidate_metadata. emits_step; [emits_step|].
  silent. by destruct (zarr_consolidate_metadata B _ _) as [[r archive] w].
Qed.

Lemma emits_only_upload_zarr owner name dataset_json timeout if_exists :
  emits_only (W := W) is_array_transfer (upload_zarr B owner name dataset_json timeout if_exists).
Proof.
  unfold upload_zarr. apply emits_only_tmp_attribute_change.
  repeat emits_step;
    auto using emits_only_open_zarr_file, emits_only_run_consolidate_metadata,
      emits_only_local_getitem, emits_only_hub_setitem, emits_only_copy_store.
Qed.

(** Opening the destination is the first action of the array transfer:
    a transfer that succeeds has left actions in the trace. *)
Lemma upload_zarr_success_opens owner name dataset_json timeout if_exists (s : State W) :
  (upload_zarr B owner name dataset_json timeout if_exists s).1 = Ok () →
  trace (upload_zarr B owner name dataset_json timeout if_exists s).2 ≠ trace s.
Proof.
  destruct (upload_zarr B owner name dataset_json timeout if_exists s) as [r s'] eqn:Hrun.
  simpl. intros ->. revert Hrun.
  unfold upload_zarr, tmp_attribute_change.
  set (s0 := set_default_timeout timeout s).
  unfold bind at 1, lift at 1.
  destruct (getitem "zarrRootPath" (JObj dataset_json)) as [path_json|e]; [|done].
  unfold bind at 1, lift at 1.
  destruct (as_str path_json) as [path|e]; [|done].
  unfold bind at 1.
  assert (∃ evs, trace (open_zarr_file B owner (default "None" name) path "w" false s0).2
                 = trace s ++ EvZarrOpen path "w" false :: evs) as [evs1 Hopen].
  { unfold open_zarr_file, try_except, bind, emit, run_zarr_open; simpl.
    destruct (zarr_open B _ _ _ _ _ _ _) as [[[|e] hub] w]; simpl; by exists []. }
  destruct (open_zarr_file B owner (default "None" name) path "w" false s0)
    as [[[]|e] s1]; simpl in Hopen; [|done].
  match goal with
  | |- context [let '(_, _) := ?rest s1 in _] =>
      assert (emits_only (W := W) is_array_transfer rest) as Hrest
  end.
  { repeat emits_step;
      auto using emits_only_run_consolidate_metadata,
        emits_only_local_getitem, emits_only_hub_setitem, emits_only_copy_store. }
  destruct (Hrest s1) as (evs2 & Htrace & _).
  match goal with
  | |- context [let '(_, _) := ?rest s1 in _] => destruct (rest s1) as [r s2]
  end.
  simpl in *. intros [= _ <-]. simpl. rewrite Htrace, Hopen, <- app_assoc.
  intros Heq. apply (f_equal length) in Heq.
  rewrite !length_app in Heq. simpl in Heq. lia.
Qed.

(** *** The order of the steps of an upload *)

Lemma table_transfer_requests buffer timeout evs r :
  table_transfer buffer timeout evs r → Forall is_table_transfer evs.
Proof. destruct 1; repeat constructor. Qed.

Lemma table_transfer_success buffer timeout evs :
  table_transfer buffer timeout evs (Ok ()) → evs ≠ [].
Proof. by inversion 1. Qed.

(** C4. The actions of an upload fall into four consecutive blocks, in
    this order: the serialisation of the table (size and digest), the
    announce [PUT] carrying that size, that digest and the checksum
    manifest, the requests of the tabular transfer, and the actions of
    the array transfer.  A block is entered only when the one before it
    has been; the array block is entered only for a dataset that uses
    zarr, and an upload that succeeds has gone through it exactly when
    the dataset uses zarr. *)
Theorem upload_dataset_order dataset access timeout owner if_exists (s : State W) :
  let buffer := to_parquet B (table dataset) in
  let size := length buffer in
  let digest := md5_hexdigest B buffer in
  ∃ prepared announced tabular array,
    trace (upload_dataset B dataset access timeout owner if_exists s).2
    = trace s ++ prepared ++ announced ++ tabular ++ array
    ∧ (prepared = [] ∨ prepared = [EvTableSerialized size digest])
    ∧ (announced = [] ∨
       ∃ artifact dataset_json effective_timeout,
         announced = [EvRequest (announce_request artifact size digest
                                   (_zarr_md5sum_manifest dataset) access
                                   dataset_json effective_timeout)])
    ∧ Forall is_table_transfer tabular
    ∧ Forall is_array_transfer array
    ∧ (announced ≠ [] → prepared ≠ [])
    ∧ (tabular ≠ [] → announced ≠ [])
    ∧ (array ≠ [] → tabular ≠ [] ∧ uses_zarr dataset = true)
    ∧ (∀ response,
         (upload_dataset B dataset access timeout owner if_exists s).1 = Ok response →
         prepared ≠ [] ∧ announced ≠ [] ∧ tabular ≠ []
         ∧ (array ≠ [] ↔ uses_zarr dataset = true)).
Proof.
  intros buffer size digest.
  destruct (upload_dataset B dataset access timeout owner if_exists s) as [r s'] eqn:Hrun.
  simpl. revert Hrun. unfold upload_dataset.
  destruct (negb (truthy (license dataset))).
  { intros [= <- <-]. exists [], [], [], []. simpl. rewrite app_nil_r.
    repeat split; auto; done. }
  unfold bind at 1.
  assert (∃ effective_timeout,
            match timeout with
            | Some t => ret t
            | None => read default_timeout
            end s = (Ok effective_timeout, s)) as [effective_timeout ->].
  { destruct timeout; by eexists. }
  unfold bind at 1, lift at 1.
  destruct (normalize_owner B (or_else owner (owner_of dataset))) as [dataset_owner|e].
  2:{ intros [= <- <-]. exists [], [], [], []. simpl. rewrite app_nil_r.
      repeat split; auto; done. }
  simpl table. simpl _zarr_md5sum_manifest. simpl uses_zarr. simpl name_of.
  fold buffer. fold size. fold digest.
  set (dataset_json := dict_set "zarrRootPath" _ _).
  unfold bind at 1, emit at 1.
  set (s1 := record (EvTableSerialized size digest) s).
  unfold bind at 1.
  set (artifact := artifact_id B dataset_owner (name_of dataset)).
  pose proof (base_request_to_hub_trace ("/dataset/" +:+ artifact) "PUT"
                (mkKwargs None
                   (Some (announce_json size digest (_zarr_md5sum_manifest dataset)
                                        access dataset_json))
                   None (Some effective_timeout) None) s1) as Hannounce.
  fold (announce_request artifact size digest (_zarr_md5sum_manifest dataset) access
          dataset_json effective_timeout) in Hannounce.
  fold (announce B artifact size digest (_zarr_md5sum_manifest dataset) access
          dataset_json effective_timeout) in Hannounce.
  set (announced := [EvRequest (announce_request artifact size digest
                                  (_zarr_md5sum_manifest dataset) access dataset_json
                                  effective_timeout)]) in *.
  assert (announced ≠ []) as Hannounced by done.
  assert (announced = [] ∨
          ∃ artifact dataset_json effective_timeout,
            announced = [EvRequest (announce_request artifact size digest
                                      (_zarr_md5sum_manifest dataset) access
                                      dataset_json effective_timeout)]) as Hcarries.
  { right. by exists artifact, dataset_json, effective_timeout. }
  clearbody announced.
  destruct (announce B artifact size digest (_zarr_md5sum_manifest dataset) access
              dataset_json effective_timeout s1) as [[response|e] s2]; simpl in Hannounce.
  2:{ intros [= <- <-]. exists [EvTableSerialized size digest], announced, [], [].
      rewrite Hannounce. simpl. rewrite app_nil_r, <- app_assoc.
      split; [done|]. repeat split; auto; done. }
  unfold bind at 1.
  destruct (upload_table_trace response buffer effective_timeout s2)
    as (tabular & Htabular & Hshape).
  pose proof (table_transfer_requests _ _ _ _ Hshape) as Hrequests.
  destruct (upload_table B response buffer effective_timeout s2) as [[[]|e] s3];
    simpl in Htabular, Hshape.
  2:{ intros [= <- <-]. exists [EvTableSerialized size digest], announced, tabular, [].
      rewrite Htabular, Hannounce. simpl. rewrite app_nil_r, <- !app_assoc.
      split; [done|]. repeat split; auto; done. }
  pose proof (table_transfer_success _ _ _ Hshape) as Hstarted.
  unfold bind at 1.
  destruct (uses_zarr dataset) eqn:Hzarr.
  - destruct (emits_only_upload_zarr dataset_owner (name_of dataset) dataset_json
                effective_timeout if_exists s3) as (array & Harray & Honly).
    pose proof (upload_zarr_success_opens dataset_owner (name_of dataset) dataset_json
                  effective_timeout if_exists s3) as Hopens.
    destruct (upload_zarr B dataset_owner (name_of dataset) dataset_json
                effective_timeout if_exists s3) as [[[]|e] s4];
      simpl in Harray, Hopens.
    + intros [= <- <-]. exists [EvTableSerialized size digest], announced, tabular, array.
      rewrite Harray, Htabular, Hannounce. simpl. rewrite <- !app_assoc.
      split; [done|].
      assert (array ≠ []) as Hnonempty.
      { intros ->. apply Hopens; [done|]. by rewrite Harray, app_nil_r. }
      repeat split; auto; done.
    + intros [= <- <-]. exists [EvTableSerialized size digest], announced, tabular, array.
      rewrite Harray, Htabular, Hannounce. simpl. rewrite <- !app_assoc.
      split; [done|]. repeat split; auto; done.
  - intros [= <- <-]. exists [EvTableSerialized size digest], announced, tabular, [].
    rewrite Htabular, Hannounce. simpl. rewrite app_nil_r, <- !app_assoc.
    split; [done|]. repeat split; auto; done.
Qed.

(** *** Requests to a signed destination *)

Lemma as_header_types_of_headers j headers :
  as_headers j = Ok headers → as_header_types j = Ok (Some headers).
Proof. intros Hheaders. unfold as_header_types. rewrite Hheaders. by destruct j. Qed.

(** C7. [_load_from_signed_url] issues one request, a [GET] of the given
    location with [auth=None].  Once the hub has named a signed location,
    the one request that follows it goes out with [auth=None], so that
    the session token is not attached: in a download this is the [GET]
    of the table, in an upload the [PUT] of the buffered table. *)
Theorem signed_url_without_credentials :
  (∀ A url (load_fn : Bytes → Result A) headers (s : State W),
     ∃ r,
       trace (_load_from_signed_url B url load_fn headers s).2 = trace s ++ [EvRequest r]
       ∧ req_url r = url
       ∧ req_auth r = AuthNone
       ∧ sends_session_token r = false)
  ∧ (∀ owner name strategy (s s1 s2 : State W) response table_content table_url
     storage_response body url headers_json headers,
     _base_request_to_hub B ("/dataset/" +:+ owner +:+ "/" +:+ name) "GET" no_kwargs s
     = (Ok response, s1) →
     reply_getitem "tableContent" response = Ok table_content →
     getitem "url" table_content = Ok (JStr table_url) →
     get B table_url USE_CLIENT_DEFAULT None s1 = (Ok storage_response, s2) →
     status_code storage_response = 307 ∨ is_success storage_response = true →
     resp_json storage_response = Some body →
     getitem "url" body = Ok (JStr url) →
     getitem "headers" body = Ok headers_json →
     as_headers headers_json = Ok headers →
     trace (get_dataset B owner name strategy s).2
     = trace s2 ++ [EvRequest (signed_get_request url headers)]
     ∧ req_auth (signed_get_request url headers) = AuthNone
     ∧ sends_session_token (signed_get_request url headers) = false)
  ∧ (∀ response buffer timeout (s s1 : State W) table_content table_url hub_response
       body url method headers_json headers,
       reply_getitem "tableContent" response = Ok table_content →
       getitem "url" table_content = Ok (JStr table_url) →
       request B "PUT" table_url false USE_CLIENT_DEFAULT
         (mkKwargs (Some parquet_content_type) None None (Some timeout) None) s
       = (Ok hub_response, s1) →
       status_code hub_response = 307 →
       resp_json hub_response = Some body →
       getitem "url" body = Ok (JStr url) →
       getitem "method" body = Ok (JStr method) →
       getitem "headers" body = Ok headers_json →
       as_headers headers_json = Ok headers →
       trace (upload_table B response buffer timeout s).2
       = trace s1 ++ [EvRequest (signed_put_request method url headers buffer timeout)]
       ∧ req_auth (signed_put_request method url headers buffer timeout) = AuthNone
       ∧ sends_session_token (signed_put_request method url headers buffer timeout)
         = false).
Proof.
  split; [|split].
  - intros A url load_fn headers s. eexists.
    split; [apply load_from_signed_url_trace|done].
  - intros owner name strategy s s1 s2 response table_content table_url
      storage_response body url headers_json headers
      Hmeta Hcontent Hurl Hstorage Hstatus Hbody Hsigned Hheaders_json Hheaders.
    split; [|done].
    unfold get_dataset. unfold bind at 1. rewrite Hmeta.
    unfold bind at 1, lift at 1. rewrite Hcontent.
    unfold bind at 1, lift at 1. rewrite Hurl.
    unfold bind at 1, lift at 1. simpl as_str. cbv iota beta.
    unfold bind at 1. rewrite Hstorage.
    unfold bind at 1.
    assert ((if negb (status_code storage_response =? 307)
             then match raise_for_status storage_response with
                  | Ok _ => ret ()
                  | Raise error =>
                      throw (PolarisHubError "Could not get signed URL from Polaris Hub." error)
                  end
             else ret ()) s2 = (Ok (), s2)) as ->.
    { destruct Hstatus as [-> | Hok]; [done|].
      unfold raise_for_status. rewrite Hok. by destruct (negb _). }
    unfold bind at 1, lift at 1, response_json at 1. rewrite Hbody.
    unfold bind at 1, lift at 1. rewrite Hsigned.
    unfold bind at 1, lift at 1. rewrite Hheaders_json.
    unfold bind at 1, lift at 1. simpl as_str. cbv iota beta.
    unfold bind at 1, lift at 1. rewrite (as_header_types_of_headers _ _ Hheaders).
    unfold bind at 1.
    pose proof (load_from_signed_url_trace url (read_parquet B) (Some headers) s2) as Hload.
    destruct (_load_from_signed_url B url (read_parquet B) (Some headers) s2)
      as [[loaded|e] s3]; simpl in Hload; [|done].
    unfold bind, lift, ret.
    destruct response; [|done].
    destruct (make_dataset B j loaded); [|done].
    destruct (should_verify_checksum B strategy a).
    + by destruct (verify_checksum B a).
    + destruct (getitem "md5Sum" j) as [reported|e]; [|done].
      by destruct (set_md5sum B reported a).
  - intros response buffer timeout s s1 table_content table_url hub_response
      body url method headers_json headers
      Hcontent Hurl Hfirst H307 Hbody Hsigned Hmethod Hheaders_json Hheaders.
    split; [|done].
    unfold upload_table, bind, lift, ret, response_json.
    rewrite Hcontent, Hurl. cbn [as_str]. rewrite Hfirst, H307, Z.eqb_refl.
    rewrite Hbody, Hsigned, Hmethod, Hheaders_json. cbn [as_str]. rewrite Hheaders.
    pose proof (request_trace method url false AuthNone
                  (mkKwargs (Some (dict_update parquet_content_type headers)) None
                            (Some buffer) (Some timeout) None) s1) as Hsecond.
    destruct (request B method url false AuthNone _ s1) as [[bucket_response|e] s2];
      simpl in Hsecond; [|exact Hsecond].
    destruct (raise_for_status bucket_response); exact Hsecond.
Qed.

(** *** The bulk copy *)

(** A store operation, failed or not, leaves both archives as they are. *)
Lemma hub_store_op_stores op (s : State W) :
  hub_zarr (hub_store_op B op s).2 = hub_zarr s
  ∧ local_zarr (hub_store_op B op s).2 = local_zarr s.
Proof.
  unfold hub_store_op, bind, emit; simpl.
  by destruct (hub_store_fault B op _ _) as [[e|] w].
Qed.

Lemma hub_contains_spec key (s s' : State W) r :
  hub_contains B key s = (r, s') →
  hub_zarr s' = hub_zarr s ∧ local_zarr s' = local_zarr s
  ∧ (is_raise r ∨ r = Ok (bool_decide (is_Some (hub_zarr s !! key)))).
Proof.
  unfold hub_contains. unfold bind at 1.
  destruct (hub_store_op_stores (OpContains key) s) as [Hhub Hlocal].
  destruct (hub_store_op B (OpContains key) s) as [[[]|e] s1]; simpl in *.
  - unfold bind, read, ret. intros [= <- <-]. rewrite Hhub. auto.
  - intros [= <- <-]. simpl. auto.
Qed.

Lemma hub_setitem_spec key data (s s' : State W) r :
  hub_setitem B key data s = (r, s') →
  local_zarr s' = local_zarr s
  ∧ ((is_raise r ∧ hub_zarr s' = hub_zarr s)
     ∨ (r = Ok () ∧ hub_zarr s' = <[key := data]> (hub_zarr s))).
Proof.
  unfold hub_setitem. unfold bind at 1.
  destruct (hub_store_op_stores (OpSetItem key) s) as [Hhub Hlocal].
  destruct (hub_store_op B (OpSetItem key) s) as [[[]|e] s1]; simpl in *.
  - unfold modify. intros [= <- <-]. simpl. rewrite Hhub. auto.
  - intros [= <- <-]. simpl. auto.
Qed.

Lemma local_getitem_spec key (s s' : State W) r :
  local_getitem key s = (r, s') →
  s' = s
  ∧ r = match local_zarr s !! key with
        | Some data => Ok data
        | None => Raise (KeyError key)
        end.
Proof.
  unfold local_getitem, bind, read. simpl.
  destruct (local_zarr s !! key); unfold ret, throw; by intros [= <- <-].
Qed.

(** Policy [skip]: an entry the destination already holds is still there,
    byte for byte, however the copy ends. *)
Lemma copy_keys_skip_keeps keys n_copied n_skipped n_bytes (s : State W) key data :
  hub_zarr s !! key = Some data →
  hub_zarr (copy_keys B IfExistsSkip keys n_copied n_skipped n_bytes s).2 !! key
  = Some data.
Proof.
  revert n_copied n_skipped n_bytes s.
  induction keys as [|k rest IH]; intros n_copied n_skipped n_bytes s Hheld; [done|].
  cbn [copy_keys]. unfold bind at 1. unfold bind at 1.
  destruct (hub_contains B k s) as [[present|e] s1] eqn:Hcontains;
    apply hub_contains_spec in Hcontains as (Hhub1 & Hlocal1 & Hresult);
    [|simpl; by rewrite Hhub1].
  destruct Hresult as [[]|[= ->]].
  unfold ret at 1. cbv iota beta.
  case_bool_decide as Hpresent; cbn [negb].
  { apply IH. by rewrite Hhub1. }
  assert (k ≠ key) as Hother.
  { intros ->. apply Hpresent. by exists data. }
  unfold bind at 1.
  destruct (local_getitem k s1) as [[chunk|e] s2] eqn:Hget;
    apply local_getitem_spec in Hget as [-> _]; [|simpl; by rewrite Hhub1].
  unfold bind at 1.
  destruct (hub_setitem B k chunk s1) as [r3 s3] eqn:Hset.
  apply hub_setitem_spec in Hset as (Hlocal3 & [[Hraise Hhub3]|[-> Hhub3]]).
  - destruct r3 as [[]|e]; [done|]. simpl. by rewrite Hhub3, Hhub1.
  - apply IH. by rewrite Hhub3, lookup_insert_ne, Hhub1.
Qed.

Section QuietStore.

(** The store operations on the hub go through: the transfer is not cut
    short by the network. *)
Hypothesis quiet : ∀ op timeout w, (hub_store_fault B op timeout w).1 = None.









End QuietStore.

End ClientFacts.

(** ** The client on the scripted world *)



Lemma hub_request_401_raises_hub_error_witness :
  (_base_request_to_hub scripted "/dataset" "GET" no_kwargs (initial world_401)).1
  = Raise (PolarisHubError
             (hub_error_message scripted unauthorized_body)
             (HTTPStatusError (mkResponse 401 [] [] (Some unauthorized_body)))).
Proof.
  apply (hub_request_401_raises_hub_error scripted "GET" "/dataset" no_kwargs
           (initial world_401) (mkResponse 401 [] [] (Some unauthorized_body))
           (mkScript [] true true "fresh-token") unauthorized_body);
    reflexivity.
Defined.



Lemma ensure_active_token_cases_witness :
  ensure_active_token scripted "hub-token" (initial world_hub_active)
  = (Ok true, initial world_hub_active)
  ∧ ensure_active_token scripted "hub-token" (initial world_signed_out)
    = (Ok false, initial world_signed_out)
  ∧ (ensure_active_token scripted "hub-token" (initial world_hub_expired)).1 = Ok true
  ∧ token (ensure_active_token scripted "hub-token" (initial world_hub_expired)).2
    = Some "fresh-token".
Proof.
  split; [|split].
  - destruct (ensure_active_token_cases scripted "hub-token" (initial world_hub_active))
      as (Hactive & _ & _).
    apply (Hactive world_hub_active). reflexivity.
  - destruct (ensure_active_token_cases scripted "hub-token" (initial world_signed_out))
      as (_ & Hinactive & _).
    apply (Hinactive world_signed_out world_signed_out); reflexivity.
  - destruct (ensure_active_token_cases scripted "hub-token" (initial world_hub_expired))
      as (_ & _ & Hrefetch).
    rewrite (Hrefetch world_hub_expired world_hub_expired
               (mkScript [] true true "fresh-token") "fresh-token");
      [split|..]; reflexivity.
Defined.

Lemma open_zarr_file_consolidated_mode_witness :
  open_zarr_file scripted "acme" "solubility" "polarisfs://data.zarr" "w" true
    (initial world_hub_active)
  = (Raise (ValueError "Consolidated archives can only be used with 'r' or 'r+' mode."),
     initial world_hub_active).
Proof.
  apply (open_zarr_file_consolidated_mode scripted); discriminate.
Defined.

Lemma get_dataset_no_redirect_witness :
  (get_dataset scripted "acme" "solubility" VerifyUnlessZarr
     (initial world_download_refused)).1
  = Raise (PolarisHubError "Could not get signed URL from Polaris Hub."
                           (HTTPStatusError (mkResponse 404 [] [] None))).
Proof.
  rewrite (get_dataset_no_redirect scripted "acme" "solubility" VerifyUnlessZarr
             (initial world_download_refused)
             (_base_request_to_hub scripted "/dataset/acme/solubility" "GET" no_kwargs
                (initial world_download_refused)).2
             (get scripted "/storage/table.parquet" USE_CLIENT_DEFAULT None
                (_base_request_to_hub scripted "/dataset/acme/solubility" "GET" no_kwargs
                   (initial world_download_refused)).2).2
             (ReplyJson metadata_body)
             (JObj [("url", JStr "/storage/table.parquet")])
             "/storage/table.parquet"
             (mkResponse 404 [] [] None));
    try reflexivity.
  discriminate.
Defined.

Lemma upload_dataset_without_license_witness :
  ∃ message,
    upload_dataset scripted unlicensed_dataset "private" (Some (TimeoutConnectWrite 10 200))
      None IfExistsReplace (initial world_upload)
    = (Raise (InvalidDatasetError message), initial world_upload).
Proof.
  apply (upload_dataset_without_license scripted). reflexivity.
Defined.

Lemma signed_url_without_credentials_witness :
  (trace (get_dataset scripted "acme" "solubility" VerifyUnlessZarr
            (initial world_download)).2
   = trace (get scripted "/storage/table.parquet" USE_CLIENT_DEFAULT None
              (_base_request_to_hub scripted "/dataset/acme/solubility" "GET" no_kwargs
                 (initial world_download)).2).2
     ++ [EvRequest (signed_get_request "https://bucket.example/signed"
                      [("x-signature", "abc")])]
   ∧ sends_session_token
       (signed_get_request "https://bucket.example/signed" [("x-signature", "abc")])
     = false)
  ∧ (trace (upload_table scripted (ReplyJson metadata_body) [Byte.x50] (TimeoutAll 200)
              (initial world_redirect)).2
     = trace (request scripted "PUT" "/storage/table.parquet" false USE_CLIENT_DEFAULT
                (mkKwargs (Some parquet_content_type) None None (Some (TimeoutAll 200))
                          None)
                (initial world_redirect)).2
       ++ [EvRequest (signed_put_request "PUT" "https://bucket.example/signed"
                        [("x-signature", "abc")] [Byte.x50] (TimeoutAll 200))]
     ∧ sends_session_token
         (signed_put_request "PUT" "https://bucket.example/signed"
            [("x-signature", "abc")] [Byte.x50] (TimeoutAll 200))
       = false).
Proof.
  destruct (signed_url_without_credentials scripted) as (_ & Hdownload & Hupload).
  split.
  - destruct (Hdownload "acme" "solubility" VerifyUnlessZarr
                (initial world_download)
                (_base_request_to_hub scripted "/dataset/acme/solubility" "GET" no_kwargs
                   (initial world_download)).2
                (get scripted "/storage/table.parquet" USE_CLIENT_DEFAULT None
                   (_base_request_to_hub scripted "/dataset/acme/solubility" "GET"
                      no_kwargs (initial world_download)).2).2
                (ReplyJson metadata_body)
                (JObj [("url", JStr "/storage/table.parquet")])
                "/storage/table.parquet"
                (mkResponse 307 [] [] (Some redirect_body))
                redirect_body
                "https://bucket.example/signed"
                (JObj [("x-signature", JStr "abc")])
                [("x-signature", "abc")]) as (Htrace & _ & Hwithheld);
      try reflexivity.
    + left. reflexivity.
    + split; [exact Htrace | exact Hwithheld].
  - destruct (Hupload (ReplyJson metadata_body) [Byte.x50] (TimeoutAll 200)
                (initial world_redirect)
                (request scripted "PUT" "/storage/table.parquet" false USE_CLIENT_DEFAULT
                   (mkKwargs (Some parquet_content_type) None None
                             (Some (TimeoutAll 200)) None)
                   (initial world_redirect)).2
                (JObj [("url", JStr "/storage/table.parquet")])
                "/storage/table.parquet"
                (mkResponse 307 [] [] (Some redirect_body))
                redirect_body
                "https://bucket.example/signed"
                "PUT"
                (JObj [("x-signature", JStr "abc")])
                [("x-signature", "abc")]) as (Htrace & _ & Hwithheld);
      try reflexivity.
    split; [exact Htrace | exact Hwithheld].
Defined.

Lemma upload_dataset_order_witness :
  ∃ prepared announced tabular array,
    trace (upload_dataset scripted sample_dataset "private" None None IfExistsReplace
             upload_state).2
    = trace upload_state ++ prepared ++ announced ++ tabular ++ array
    ∧ prepared ≠ [] ∧ announced ≠ [] ∧ tabular ≠ [] ∧ array ≠ [].
Proof.
  destruct (upload_dataset_order scripted sample_dataset "private" None None
              IfExistsReplace upload_state)
    as (prepared & announced & tabular & array & Htrace & _ & _ & _ & _ & _ & _ & _ & Hdone).
  exists prepared, announced, tabular, array.
  split; [exact Htrace|].
  destruct (Hdone (ReplyJson metadata_body) eq_refl) as (H1 & H2 & H3 & H4).
  repeat split; [exact H1 | exact H2 | exact H3 |].
  apply H4. reflexivity.
Defined.

(** ** Runs of the client on the scripted world *)

Example contains_ssl_code :
  contains _HTTPX_SSL_ERROR_CODE
    "[SSL: CERTIFICATE_VERIFY_FAILED] certificate verify failed (_ssl.c:1007)" = true
  ∧ contains _HTTPX_SSL_ERROR_CODE "[Errno 111] Connection refused" = false.
Proof. split; reflexivity. Qed.

Example dict_update_overrides :
  dict_update [("access", JStr "private"); ("name", JNull)]
              [("name", JStr "solubility"); ("tags", JArr [])]
  = [("access", JStr "private"); ("name", JStr "solubility"); ("tags", JArr [])].
Proof. reflexivity. Qed.

Example sorted_keys_sample :
  sorted_keys (<[".zmetadata" := []]> sample_archive) = [".zmetadata"; "a/0"; "b/0"; "c/0"].
Proof. reflexivity. Qed.

(** With no reply left the scripted network refuses the connection; the
    wrapper passes a connection error without the SSL marker through. *)
Example request_connection_refused :
  (request scripted "GET" "/dataset" false USE_CLIENT_DEFAULT no_kwargs
     (initial world_hub_active)).1
  = Raise (ConnectError "connection refused").
Proof. reflexivity. Qed.

(** A download that goes through: metadata, redirect, signed location. *)
Example get_dataset_requests :
  trace (get_dataset scripted "acme" "solubility" VerifyUnlessZarr
           (initial world_download)).2
  = [EvRequest (mkRequest "GET" "/dataset/acme/solubility" false USE_CLIENT_DEFAULT
                          no_kwargs);
     EvRequest (mkRequest "GET" "/storage/table.parquet" false USE_CLIENT_DEFAULT
                          no_kwargs);
     EvRequest (signed_get_request "https://bucket.example/signed"
                                   [("x-signature", "abc")])].
Proof. reflexivity. Qed.

(** An upload that goes through, with the default [replace] policy: the
    stale chunk on the hub ends up with the bytes of the local archive,
    the session default timeout is back at ten seconds, and the array
    actions come after the three requests. *)
Example upload_dataset_run :
  let run := upload_dataset scripted sample_dataset "private"
               (Some (TimeoutConnectWrite 10 200)) None IfExistsReplace upload_state in
  run.1 = Ok (ReplyJson metadata_body)
  ∧ hub_zarr run.2 !! "b/0" = Some [Byte.x02]
  ∧ default_timeout run.2 = TimeoutAll 10
  ∧ drop 4 (trace run.2)
    = [EvZarrOpen "polarisfs://data.zarr" "w" false; EvConsolidate;
       EvStore (OpSetItem ".zmetadata"); EvStore (OpSetItem ".zmetadata");
       EvStore (OpSetItem "a/0"); EvStore (OpSetItem "b/0"); EvStore (OpSetItem "c/0")].
Proof. repeat split; reflexivity. Qed.

(** By the time the copy of an upload starts, the destination holds the
    consolidated metadata the upload has just written there, and the
    local archive holds it too: under [raise] that key is the first one
    the copy finds on both sides. *)
Example upload_zarr_raise_run :
  (upload_zarr scripted "acme" (Some "solubility")
     [("zarrRootPath", JStr "polarisfs://data.zarr")] (TimeoutAll 200) IfExistsRaise
     copy_state).1
  = Raise (CopyError ".zmetadata").
Proof. reflexivity. Qed.

(** ** Tools for the further facts *)

(** A sequence that ends well went well at every step. *)
Lemma bind_ok_inv {S A C} (m : M S A) (k : A → M S C) s c s' :
  bind m k s = (Ok c, s') → ∃ a s1, m s = (Ok a, s1) ∧ k a s1 = (Ok c, s').
Proof.
  unfold bind. destruct (m s) as [[a|e] s1]; [|done]. intros Hk. by exists a, s1.
Qed.


(** [contains] is Python's [in]: the needle occurs somewhere. *)
Lemma prefix_iff needle haystack :
  String.prefix needle haystack = true ↔ ∃ post, haystack = needle +:+ post.
Proof.
  revert haystack. induction needle as [|a needle IH]; intros haystack.
  - destruct haystack; simpl; split; eauto.
  - destruct haystack as [|b haystack]; simpl.
    + split; [done|]. by intros [post Hpost].
    + destruct (Ascii.ascii_dec a b) as [->|Hne].
      * rewrite IH. split; intros [post Hpost]; exists post.
        -- simpl. by rewrite Hpost.
        -- simpl in Hpost. by injection Hpost.
      * split; [done|]. intros [post Hpost]. simpl in Hpost.
        injection Hpost as Hhead _. by destruct Hne.
Qed.

Lemma contains_iff needle haystack :
  contains needle haystack = true ↔ ∃ pre post, haystack = pre +:+ needle +:+ post.
Proof.
  induction haystack as [|c haystack IH]; cbn [contains].
  - rewrite orb_false_r, prefix_iff. split.
    + intros [post Hpost]. by exists "", post.
    + intros (pre & post & Hsplit). destruct pre; [by exists post|done].
  - rewrite orb_true_iff, prefix_iff, IH. split.
    + intros [[post Hpost]|(pre & post & Hsplit)].
      * by exists "", post.
      * exists (String c pre), post. simpl. by rewrite Hsplit.
    + intros (pre & post & Hsplit). destruct pre as [|c' pre]; simpl in Hsplit.
      * left. by exists post.
      * right. exists pre, post. by injection Hsplit.
Qed.

(** Dictionaries: what was set is what is read, and nothing else moves. *)
Lemma assoc_dict_set_eq {V} key (v : V) d : assoc key (dict_set key v d) = Some v.
Proof.
  induction d as [|[k x] d IH]; simpl.
  - by rewrite String.eqb_refl.
  - destruct (String.eqb k key) eqn:Hk; simpl; by rewrite Hk.
Qed.

Lemma assoc_dict_set_ne {V} key other (v : V) d :
  key ≠ other → assoc other (dict_set key v d) = assoc other d.
Proof.
  intros Hne. induction d as [|[k x] d IH]; simpl.
  - apply String.eqb_neq in Hne. by rewrite Hne.
  - destruct (String.eqb k key) eqn:Hk; simpl.
    + apply String.eqb_eq in Hk as ->. apply String.eqb_neq in Hne. by rewrite Hne.
    + by rewrite IH.
Qed.

Lemma assoc_None {V} key (d : list (string * V)) : assoc key d = None ↔ key ∉ d.*1.
Proof.
  induction d as [|[k x] d IH]; simpl.
  - split; [intros _; apply not_elem_of_nil|done].
  - destruct (String.eqb k key) eqn:Hk.
    + apply String.eqb_eq in Hk as ->. split; [done|]. intros Hout. destruct Hout. by left.
    + apply String.eqb_neq in Hk. rewrite IH, not_elem_of_cons. split; [by split|by intros [_ ?]].
Qed.

(** [{**d, **extra}]: a key of [extra] has the value of [extra], any
    other key keeps the value of [d]. *)
Lemma assoc_dict_update {V} key (d extra : list (string * V)) :
  NoDup extra.*1 →
  assoc key (dict_update d extra)
  = match assoc key extra with
    | Some v => Some v
    | None => assoc key d
    end.
Proof.
  unfold dict_update. revert d.
  induction extra as [|[k x] extra IH]; intros d Hnodup; simpl; [done|].
  apply NoDup_cons in Hnodup as [Hfresh Hnodup]. simpl in Hfresh. rewrite IH by done.
  destruct (String.eqb k key) eqn:Hk.
  - apply String.eqb_eq in Hk as ->.
    apply assoc_None in Hfresh as ->. apply assoc_dict_set_eq.
  - apply String.eqb_neq in Hk.
    destruct (assoc key extra); [done|]. by apply assoc_dict_set_ne.
Qed.

Lemma dict_set_keys {V} key (v : V) d :
  (dict_set key v d).*1 = if decide (key ∈ d.*1) then d.*1 else d.*1 ++ [key].
Proof.
  induction d as [|[k x] d IH].
  - by rewrite decide_False by apply not_elem_of_nil.
  - cbn [dict_set]. destruct (String.eqb k key) eqn:Hk; rewrite !fmap_cons; cbn [fst].
    + apply String.eqb_eq in Hk as ->. by rewrite decide_True by (by left).
    + apply String.eqb_neq in Hk. rewrite IH.
      destruct (decide (key ∈ d.*1)) as [Hin|Hout].
      * by rewrite decide_True by (by right).
      * rewrite decide_False; [done|]. by intros [?|?]%elem_of_cons.
Qed.

Lemma dict_set_NoDup {V} key (v : V) d : NoDup d.*1 → NoDup (dict_set key v d).*1.
Proof.
  intros Hnodup. rewrite dict_set_keys. destruct (decide (key ∈ d.*1)); [done|].
  apply NoDup_app. split; [done|]. split.
  - intros k Hk [->|Hnil]%elem_of_cons; [done|by inversion Hnil].
  - apply NoDup_singleton.
Qed.

(** A comprehension succeeds exactly when every element does, and keeps
    the order. *)
Lemma comprehension_ok_iff {A C} (f : A → Result C) items ys :
  comprehension f items = Ok ys ↔ Forall2 (λ x y, f x = Ok y) items ys.
Proof.
  revert ys. induction items as [|x items IH]; intros ys; simpl.
  - split; [intros [= <-]; constructor|by inversion 1].
  - destruct (f x) as [y|e] eqn:Hx.
    + destruct (comprehension f items) as [rest|e] eqn:Hrest.
      * split.
        -- intros [= <-]. constructor; [done|]. by apply IH.
        -- inversion 1 as [|? y' ? rest' Hy Hrest']; subst.
           apply IH in Hrest'. congruence.
      * split; [done|]. inversion 1 as [|? y' ? rest' Hy Hrest']; subst.
        apply IH in Hrest'. congruence.
    + split; [done|]. inversion 1; congruence.
Qed.

(** ** Further facts about the client *)

Section FurtherClientFacts.

Context {W Table : Type} (B : Backend W Table).

(** *** [request] *)

(** X1. A connection error whose text has the SSL marker anywhere in it
    becomes [SSLCertVerificationError] with the connection error as its
    cause; a connection error without the marker is raised again as it
    is. *)
Theorem request_connect_error method url withhold auth kwargs (s : State W) message w :
  super_request B (mkRequest method url withhold auth kwargs) (world s)
  = (Raise (ConnectError message), w) →
  ((∃ pre post, message = pre +:+ _HTTPX_SSL_ERROR_CODE +:+ post) →
   ∃ text,
     (request B method url withhold auth kwargs s).1
     = Raise (SSLCertVerificationError text (ConnectError message)))
  ∧ ((∀ pre post, message ≠ pre +:+ _HTTPX_SSL_ERROR_CODE +:+ post) →
     (request B method url withhold auth kwargs s).1 = Raise (ConnectError message)).
Proof.
  intros Hsuper.
  unfold request, try_except, call_super_request, bind, emit, on_world; simpl.
  rewrite Hsuper. split.
  - intros Hmarker. apply contains_iff in Hmarker. rewrite Hmarker. by eexists.
  - intros Hnone. destruct (contains _HTTPX_SSL_ERROR_CODE message) eqn:Hfound; [|done].
    apply contains_iff in Hfound as (pre & post & Hsplit). by destruct (Hnone pre post).
Qed.

(** X2. The wrapper returns a response exactly when the base class
    returned that response: it turns no response into an error, whatever
    the status, and no error into a response. *)
Theorem request_ok_iff method url withhold auth kwargs (s : State W) response :
  (request B method url withhold auth kwargs s).1 = Ok response
  ↔ (super_request B (mkRequest method url withhold auth kwargs) (world s)).1 = Ok response.
Proof.
  unfold request, try_except, call_super_request, bind, emit, on_world; simpl.
  destruct (super_request B _ (world s)) as [[r|error] w]; simpl; [done|].
  destruct error; simpl; try done.
  - by destruct (contains _ _).
  - by destruct (negb _).
Qed.

(** X3. [request] raises [PolarisUnauthorizedError] with a given cause
    exactly when the base class raised that cause and it is a missing or
    invalid token, an OAuth error or a status error with status 401, or
    when the base class raised this very [PolarisUnauthorizedError]. *)
Theorem request_unauthorized_iff method url withhold auth kwargs (s : State W) cause :
  (request B method url withhold auth kwargs s).1 = Raise (PolarisUnauthorizedError cause)
  ↔ ∃ e,
      (super_request B (mkRequest method url withhold auth kwargs) (world s)).1 = Raise e
      ∧ (e = PolarisUnauthorizedError cause ∨ (e = cause ∧ auth_failure cause)).
Proof.
  unfold request, try_except, call_super_request, bind, emit, on_world, auth_failure; simpl.
  destruct (super_request B _ (world s)) as [[r|error] w]; simpl.
  { split; [done|]. by intros (e & He & _). }
  split.
  - intros Hraised. exists error. split; [done|].
    destruct error; simpl in Hraised;
      try (destruct (contains _ _));
      try (destruct (status_code response =? 401) eqn:H401; simpl in Hraised);
      try done; injection Hraised as <-; try (by left); right; split; try done.
    + by left.
    + right. by left.
    + right. right. left. by eexists.
    + right. right. right. eexists. split; [done|]. by apply Z.eqb_eq.
  - intros (e & [= <-] & [->|[-> Hauth]]); [done|].
    destruct Hauth as [->|[->|[[description ->]|(response & -> & H401)]]]; try done.
    simpl. by rewrite H401.
Qed.

(** *** [_base_request_to_hub] *)

(** X4. On a 2xx response the helper hands back the decoded body.  When
    the body does not decode, only the failure of a text that is no JSON
    document is caught, and the response itself is handed back; the
    failure of bytes that are no text escapes to the caller.  In each
    case the state is the one the request left. *)
Theorem base_request_success url method kwargs (s s1 : State W) response :
  request B method url false USE_CLIENT_DEFAULT kwargs s = (Ok response, s1) →
  is_success response = true →
  _base_request_to_hub B url method kwargs s
  = (match resp_json response with
     | Some j => Ok (ReplyJson j)
     | None =>
         if decodes_as_text B (resp_content response)
         then Ok (ReplyRaw response)
         else Raise UnicodeDecodeError
     end, s1).
Proof.
  intros Hrequest Hok.
  unfold _base_request_to_hub, bind, raise_for_status, response_json.
  rewrite Hrequest, Hok.
  destruct (resp_json response); [done|].
  by destruct (decodes_as_text B (resp_content response)).
Qed.

(** *** [ensure_active_token] and [login] *)

Lemma ensure_active_token_outcome tok (s : State W) :
  let run := ensure_active_token B tok s in
  default_timeout run.2 = default_timeout s
  ∧ (token run.2 = token s ∨ (run.1 = Ok true ∧ is_Some (token run.2))).
Proof.
  unfold ensure_active_token, bind, on_world, modify, ret; simpl.
  destruct (super_ensure_active_token B tok (world s)) as [[[]|e] w]; simpl; auto 10.
  destruct (external_ensure_active_token B w) as [[[]|e] w1]; simpl; auto 10.
  destruct (fetch_token B w1) as [[fresh|e] w2]; simpl; auto 10.
Qed.

(** X5. Checking the token leaves the default timeout of the session as
    it was, whatever the collaborators answer, and it changes the
    session token only in a check that answers true and leaves a token
    in place: a check that answers false or raises keeps the session
    token. *)
Theorem ensure_active_token_keeps_session tok (s : State W) :
  let run := ensure_active_token B tok s in
  default_timeout run.2 = default_timeout s
  ∧ (token run.2 ≠ token s → run.1 = Ok true ∧ is_Some (token run.2)).
Proof.
  destruct (ensure_active_token_outcome tok s) as (Htimeout & Htoken).
  split; [done|]. intros Hchanged. by destruct Htoken as [?|[? ?]].
Qed.

(** X6. A login that returns leaves a session token in place; a login
    that raises leaves the session token as it was. *)
Theorem login_outcome overwrite auto_open_browser (s : State W) :
  match (login B overwrite auto_open_browser s).1 with
  | Ok _ => is_Some (token (login B overwrite auto_open_browser s).2)
  | Raise _ => token (login B overwrite auto_open_browser s).2 = token s
  end.
Proof.
  destruct (login B overwrite auto_open_browser s) as [r s'] eqn:Hrun. simpl.
  assert (∀ (s0 : State W) r0 s0',
            (on_world (interactive_login B overwrite auto_open_browser) ;;;
             let* fresh := on_world (fetch_token B) in
             modify (set_token (Some fresh))) s0 = (r0, s0') →
            match r0 with
            | Ok _ => is_Some (token s0')
            | Raise _ => token s0' = token s0
            end) as Hinteractive.
  { intros s0 r0 s0'. unfold bind, on_world, modify; simpl.
    destruct (interactive_login B _ _ (world s0)) as [[[]|e] w]; simpl;
      [|by intros [= <- <-]].
    destruct (fetch_token B w) as [[fresh|e] w1]; simpl; intros [= <- <-]; [by eexists|done]. }
  revert Hrun. unfold login. unfold bind at 1, read at 1. cbv beta iota.
  destruct overwrite.
  { unfold bind at 1, ret at 1. cbv beta iota. apply Hinteractive. }
  destruct (ensure_active_token_outcome (default "" (token s)) s) as (_ & Hcheck).
  destruct (token s) as [t|] eqn:Htoken.
  2:{ unfold bind at 1, ret at 1. cbv beta iota. intros Hrun.
      apply Hinteractive in Hrun. destruct r; [done|]. by rewrite Hrun. }
  simpl in Hcheck. unfold bind at 1. unfold bind at 1.
  destruct (ensure_active_token B t s) as [[active|e] s1]; simpl in Hcheck.
  2:{ intros [= <- <-]. by destruct Hcheck as [Hsame|[? ?]]. }
  unfold ret at 1. cbv beta iota. destruct active; cbn [negb].
  - intros [= <- <-]. destruct Hcheck as [->|[_ ?]]; [by eexists|done].
  - intros Hrun. apply Hinteractive in Hrun.
    destruct Hcheck as [Hsame|[? ?]]; [|done].
    destruct r; [done|]. by rewrite Hrun.
Qed.

End FurtherClientFacts.

(** ** Facts about downloads and listings *)

Section DownloadFacts.

Context {W Table Benchmark : Type}.
Context (B : Backend W Table) (P : BenchmarkBackend Table Benchmark).


(** X8. A listing of datasets returns the [artifactId] of every entry of
    [data], in the order of the reply, and succeeds exactly when every
    entry has one. *)
Theorem list_datasets_ids limit offset (s s1 : State W) response items ids :
  _base_request_to_hub B "/dataset" "GET" (listing_kwargs limit offset) s
  = (Ok response, s1) →
  reply_getitem "data" response = Ok (JArr items) →
  list_datasets B limit offset s = (Ok ids, s1)
  ↔ Forall2 (λ item id, getitem "artifactId" item = Ok id) items ids.
Proof.
  intros Hreply Hdata. unfold list_datasets, bind, lift.
  rewrite Hreply, Hdata. simpl. rewrite <- comprehension_ok_iff.
  split; [by intros [= ->]|by intros ->].
Qed.

(** X9. The request of a listing: the first request a listing makes is
    a [GET] on its collection, with the limit and the offset as query
    parameters, no body and the authentication of the client, whatever
    comes back and however the listing ends. *)
Theorem listings_first_request limit offset (s : State W) :
  (∃ rest,
     trace (list_datasets B limit offset s).2
     = trace s ++ EvRequest (mkRequest "GET" "/dataset" false USE_CLIENT_DEFAULT
                               (mkKwargs None None None None
                                  (Some [("limit", limit); ("offset", offset)])))
               :: rest)
  ∧ (∃ rest,
       trace (list_benchmarks B P limit offset s).2
       = trace s ++ EvRequest (mkRequest "GET" "/benchmark" false USE_CLIENT_DEFAULT
                                 (mkKwargs None None None None
                                    (Some [("limit", limit); ("offset", offset)])))
                 :: rest).
Proof.
  split; exists [].
  - unfold list_datasets, bind, lift.
    pose proof (base_request_to_hub_trace B "/dataset" "GET" (listing_kwargs limit offset) s)
      as Htrace.
    destruct (_base_request_to_hub B "/dataset" "GET" _ s) as [[response|e] s1];
      simpl in Htrace; [|done].
    destruct (reply_getitem "data" response) as [data|e]; [|done].
    by destruct (json_iter data).
  - unfold list_benchmarks, bind, lift.
    pose proof (base_request_to_hub_trace B "/benchmark" "GET" (listing_kwargs limit offset) s)
      as Htrace.
    destruct (_base_request_to_hub B "/benchmark" "GET" _ s) as [[response|e] s1];
      simpl in Htrace; [|done].
    destruct (reply_getitem "data" response) as [data|e]; [|done].
    by destruct (json_iter data).
Qed.

(** X10. Once the hub has described the benchmark, the download of a
    benchmark goes on as the download of the dataset the reply names,
    under the same checksum strategy: it leaves the state that download
    leaves, and an error of that download is the error of the whole. *)
Theorem get_benchmark_downloads_dataset owner name strategy (s s1 : State W)
    body dataset_json owner_json slug dataset_name :
  _base_request_to_hub B ("/benchmark/" +:+ owner +:+ "/" +:+ name) "GET" no_kwargs s
  = (Ok (ReplyJson body), s1) →
  getitem "dataset" body = Ok dataset_json →
  getitem "owner" dataset_json = Ok owner_json →
  getitem "slug" owner_json = Ok (JStr slug) →
  getitem "name" dataset_json = Ok (JStr dataset_name) →
  (get_benchmark B P owner name strategy s).2
  = (get_dataset B slug dataset_name strategy s1).2
  ∧ ∀ e, (get_dataset B slug dataset_name strategy s1).1 = Raise e →
         (get_benchmark B P owner name strategy s).1 = Raise e.
Proof.
  intros Hmeta Hdataset Howner Hslug Hname.
  destruct (get_benchmark B P owner name strategy s) as [r s'] eqn:Hrun.
  simpl. revert Hrun.
  unfold get_benchmark. unfold bind at 1. rewrite Hmeta.
  unfold bind at 1, lift at 1. cbn [reply_getitem]. rewrite Hdataset.
  unfold bind at 1, lift at 1. rewrite Howner.
  unfold bind at 1, lift at 1. rewrite Hslug.
  unfold bind at 1, lift at 1.
  unfold bind at 1, lift at 1. rewrite Hname.
  rewrite !format_value_str.
  unfold bind at 1.
  destruct (get_dataset B slug dataset_name strategy s1) as [[dataset|e] s2]; simpl.
  2:{ intros [= <- <-]. split; [done|]. by intros ? [= ->]. }
  intros Hrun. split; [|done]. revert Hrun.
  unfold bind, lift, ret.
  destruct (getitem "targetCols" body) as [target_cols|e]; [|by intros [= <- <-]].
  destruct (json_len target_cols) as [n|e]; [|by intros [= <- <-]].
  destruct (make_benchmark P (Nat.eqb n 1) body dataset) as [benchmark|e];
    [|by intros [= <- <-]].
  destruct (should_verify_checksum B strategy _).
  - destruct (benchmark_verify_checksum P benchmark); by intros [= <- <-].
  - destruct (getitem "md5Sum" body); by intros [= <- <-].
Qed.

End DownloadFacts.

(** ** Facts about uploads *)

Section UploadFacts.

Context {W Table Benchmark : Type}.
Context (B : Backend W Table) (P : BenchmarkBackend Table Benchmark).

(** *** Step 2 without a redirect *)


(** *** [open_zarr_file] *)

(** X12. [open_zarr_file] raises one of two errors and nothing else:
    the [ValueError] of the mode check, which leaves the state as it
    was, or [PolarisHubError] with the text [Error opening Zarr store],
    whose cause is the failure of the opening, whatever that failure
    was. *)
Theorem open_zarr_file_errors owner name path mode as_consolidated (s : State W) e :
  (open_zarr_file B owner name path mode as_consolidated s).1 = Raise e →
  (e = ValueError "Consolidated archives can only be used with 'r' or 'r+' mode."
   ∧ as_consolidated = true ∧ is_read_mode mode = false
   ∧ (open_zarr_file B owner name path mode as_consolidated s).2 = s)
  ∨ (∃ cause,
       e = PolarisHubError "Error opening Zarr store" cause
       ∧ (zarr_open B (mkPolarisFileSystem owner name) path mode as_consolidated
            (default_timeout s) (hub_zarr s) (world s)).1.1 = Raise cause).
Proof.
  unfold open_zarr_file.
  destruct as_consolidated, (is_read_mode mode) eqn:Hmode; cbn [andb negb].
  2:{ intros [= <-]. left. done. }
  all: unfold try_except, bind, emit, run_zarr_open; simpl.
  all: destruct (zarr_open B _ _ _ _ _ _ _) as [[[[]|cause] hub] w]; simpl; [done|].
  all: intros [= <-]; right; by exists cause.
Qed.

(** *** [upload_results] *)


(** *** [upload_benchmark] *)


End UploadFacts.

(** ** Facts about the transfer of the archive *)

Section ArchiveFacts.

Context {W Table : Type}.
Context (B : Backend W Table).

(** One key of the copy: the copy stops with an error and the
    destination as it was, or it leaves the key alone (policy [skip], on
    a key the destination holds) and goes on, or it writes the entry of
    the source and goes on. *)
Lemma copy_keys_cons policy key rest n_copied n_skipped n_bytes (s s' : State W) r :
  copy_keys B policy (key :: rest) n_copied n_skipped n_bytes s = (r, s') →
  ∃ s1,
    local_zarr s1 = local_zarr s
    ∧ ((is_raise r ∧ s' = s1 ∧ hub_zarr s1 = hub_zarr s)
       ∨ (policy = IfExistsSkip ∧ is_Some (hub_zarr s !! key)
          ∧ hub_zarr s1 = hub_zarr s
          ∧ ∃ c1 c2 c3, copy_keys B policy rest c1 c2 c3 s1 = (r, s'))
       ∨ (∃ data,
            local_zarr s !! key = Some data
            ∧ hub_zarr s1 = <[key := data]> (hub_zarr s)
            ∧ (policy = IfExistsRaise → hub_zarr s !! key = None)
            ∧ ∃ c1 c2 c3, copy_keys B policy rest c1 c2 c3 s1 = (r, s'))).
Proof.
  assert (∀ (s0 : State W) c2,
            local_zarr s0 = local_zarr s → hub_zarr s0 = hub_zarr s →
            (policy = IfExistsRaise → hub_zarr s !! key = None) →
            (let* data := local_getitem key in
             hub_setitem B key data ;;;
             copy_keys B policy rest (S n_copied) c2 (n_bytes + length data)%nat) s0
            = (r, s') →
            ∃ s1,
              local_zarr s1 = local_zarr s
              ∧ ((is_raise r ∧ s' = s1 ∧ hub_zarr s1 = hub_zarr s)
                 ∨ (policy = IfExistsSkip ∧ is_Some (hub_zarr s !! key)
                    ∧ hub_zarr s1 = hub_zarr s
                    ∧ ∃ c1 c2 c3, copy_keys B policy rest c1 c2 c3 s1 = (r, s'))
                 ∨ (∃ data,
                      local_zarr s !! key = Some data
                      ∧ hub_zarr s1 = <[key := data]> (hub_zarr s)
                      ∧ (policy = IfExistsRaise → hub_zarr s !! key = None)
                      ∧ ∃ c1 c2 c3, copy_keys B policy rest c1 c2 c3 s1 = (r, s'))))
    as Hcopy.
  { intros s0 c2 Hlocal0 Hhub0 Hfree. unfold bind at 1.
    destruct (local_getitem key s0) as [got s2] eqn:Hget.
    apply local_getitem_spec in Hget as [-> ->]. rewrite Hlocal0.
    destruct (local_zarr s !! key) as [data|] eqn:Hdata.
    2:{ intros [= <- <-]. exists s0. split; [done|]. by left. }
    unfold bind at 1.
    destruct (hub_setitem B key data s0) as [set s3] eqn:Hset.
    apply hub_setitem_spec in Hset as [Hlocal3 [[Hraise Hhub3]|[-> Hhub3]]].
    - destruct set as [[]|e]; [done|]. intros [= <- <-].
      exists s3. split; [congruence|]. left. split; [done|]. split; [done|congruence].
    - intros Hrest. exists s3. split; [congruence|]. right. right.
      exists data. rewrite Hhub3, Hhub0. repeat split; [done|]. eauto. }
  cbn [copy_keys]. destruct policy.
  - unfold bind at 1. unfold bind at 1.
    destruct (hub_contains B key s) as [[present|e] s1] eqn:Hcontains;
      apply hub_contains_spec in Hcontains as (Hhub1 & Hlocal1 & Hresult).
    2:{ intros [= <- <-]. exists s1. split; [done|]. by left. }
    destruct Hresult as [[]|[= ->]].
    case_bool_decide as Hpresent.
    + unfold throw. intros [= <- <-]. exists s1. split; [done|]. by left.
    + unfold ret at 1. cbv iota beta. apply Hcopy; [done|done|].
      intros _. by apply eq_None_not_Some.
  - unfold bind at 1. unfold ret at 1. cbv iota beta. by apply Hcopy.
  - unfold bind at 1. unfold bind at 1.
    destruct (hub_contains B key s) as [[present|e] s1] eqn:Hcontains;
      apply hub_contains_spec in Hcontains as (Hhub1 & Hlocal1 & Hresult).
    2:{ intros [= <- <-]. exists s1. split; [done|]. by left. }
    destruct Hresult as [[]|[= ->]].
    unfold ret at 1. cbv iota beta.
    case_bool_decide as Hpresent; cbn [negb].
    + intros Hrest. exists s1. split; [done|]. right. left. eauto 10.
    + by apply Hcopy.
Qed.

(** What every copy keeps, under every policy and whatever the hub does:
    the source is not written, a key outside the visited ones keeps its
    entry in the destination, and no key leaves the destination. *)
Lemma copy_keys_stores policy keys n_copied n_skipped n_bytes (s : State W) :
  let s' := (copy_keys B policy keys n_copied n_skipped n_bytes s).2 in
  local_zarr s' = local_zarr s
  ∧ (∀ k, k ∉ keys → hub_zarr s' !! k = hub_zarr s !! k)
  ∧ (∀ k, is_Some (hub_zarr s !! k) → is_Some (hub_zarr s' !! k)).
Proof.
  revert n_copied n_skipped n_bytes s.
  induction keys as [|key rest IH]; intros n_copied n_skipped n_bytes s; [done|].
  destruct (copy_keys B policy (key :: rest) n_copied n_skipped n_bytes s)
    as [r s'] eqn:Hrun.
  cbn [snd].
  apply copy_keys_cons in Hrun
    as (s1 & Hlocal1
        & [(_ & -> & Hhub1)
          |[(_ & _ & Hhub1 & c1 & c2 & c3 & Hrest)
           |(data & Hdata & Hhub1 & _ & c1 & c2 & c3 & Hrest)]]).
  - rewrite Hhub1. done.
  - destruct (IH c1 c2 c3 s1) as (Hlocal & Hother & Hkept).
    rewrite Hrest in Hlocal, Hother, Hkept. cbn [snd] in *.
    rewrite Hlocal, Hlocal1. split; [done|]. split.
    + intros k Hk. rewrite Hother, Hhub1; [done|].
      intros Hin. apply Hk. by right.
    + intros k Hk. apply Hkept. by rewrite Hhub1.
  - destruct (IH c1 c2 c3 s1) as (Hlocal & Hother & Hkept).
    rewrite Hrest in Hlocal, Hother, Hkept. cbn [snd] in *.
    rewrite Hlocal, Hlocal1. split; [done|]. split.
    + intros k Hk. rewrite Hother, Hhub1.
      * apply lookup_insert_ne. intros ->. apply Hk. by left.
      * intros Hin. apply Hk. by right.
    + intros k Hk. apply Hkept. rewrite Hhub1.
      destruct (decide (key = k)) as [->|Hne].
      * rewrite lookup_insert_eq. by eexists.
      * by rewrite lookup_insert_ne.
Qed.

(** Policy [raise]: the copy fails as soon as one visited key is held by
    the destination, whatever the hub does. *)
Lemma copy_keys_raise_held keys n_copied n_skipped n_bytes (s : State W) held :
  held ∈ keys → is_Some (hub_zarr s !! held) →
  is_raise (copy_keys B IfExistsRaise keys n_copied n_skipped n_bytes s).1.
Proof.
  revert n_copied n_skipped n_bytes s.
  induction keys as [|key rest IH]; intros n_copied n_skipped n_bytes s Hin Hheld;
    [by apply elem_of_nil in Hin|].
  destruct (copy_keys B IfExistsRaise (key :: rest) n_copied n_skipped n_bytes s)
    as [r s'] eqn:Hrun.
  cbn [fst].
  apply copy_keys_cons in Hrun
    as (s1 & Hlocal1
        & [(Hraise & _)
          |[([=] & _)
           |(data & Hdata & Hhub1 & Hfree & c1 & c2 & c3 & Hrest)]]); [done|].
  specialize (Hfree eq_refl).
  apply elem_of_cons in Hin as [->|Hin].
  { rewrite Hfree in Hheld. by destruct Hheld. }
  specialize (IH c1 c2 c3 s1 Hin). rewrite Hrest in IH. apply IH.
  rewrite Hhub1. destruct (decide (key = held)) as [->|Hne].
  - rewrite lookup_insert_eq. by eexists.
  - by rewrite lookup_insert_ne.
Qed.

(** A copy that ends well has left every visited key in the
    destination; under [replace], with the entry of the source. *)
Lemma copy_keys_ok policy keys n_copied n_skipped n_bytes (s s' : State W) counts :
  copy_keys B policy keys n_copied n_skipped n_bytes s = (Ok counts, s') →
  ∀ k, k ∈ keys →
       is_Some (hub_zarr s' !! k)
       ∧ (policy = IfExistsReplace → hub_zarr s' !! k = local_zarr s !! k).
Proof.
  revert n_copied n_skipped n_bytes s.
  induction keys as [|key rest IH]; intros n_copied n_skipped n_bytes s Hrun k Hin;
    [by apply elem_of_nil in Hin|].
  apply copy_keys_cons in Hrun
    as (s1 & Hlocal1
        & [([] & _)
          |[(-> & Hheld & Hhub1 & c1 & c2 & c3 & Hrest)
           |(data & Hdata & Hhub1 & _ & c1 & c2 & c3 & Hrest)]]).
  - split; [|done].
    destruct (decide (k ∈ rest)) as [Hrest_in|Hfresh].
    + by apply (IH _ _ _ _ Hrest).
    + apply elem_of_cons in Hin as [->|Hin]; [|done].
      pose proof (copy_keys_stores IfExistsSkip rest c1 c2 c3 s1) as (_ & _ & Hkept).
      rewrite Hrest in Hkept. apply Hkept. by rewrite Hhub1.
  - destruct (decide (k ∈ rest)) as [Hrest_in|Hfresh].
    + destruct (IH _ _ _ _ Hrest k Hrest_in) as [Hsome Hsame].
      split; [done|]. intros Hpolicy. rewrite Hsame, Hlocal1; done.
    + apply elem_of_cons in Hin as [->|Hin]; [|done].
      pose proof (copy_keys_stores policy rest c1 c2 c3 s1) as (_ & Hother & _).
      rewrite Hrest in Hother. cbn [snd] in Hother.
      rewrite Hother, Hhub1, lookup_insert_eq, Hdata by done.
      split; [by eexists|done].
Qed.

(** What a transfer of the archive that ended well went through. *)
Lemma upload_zarr_ok_inv owner name dataset_json timeout policy (s s' : State W) :
  upload_zarr B owner name dataset_json timeout policy s = (Ok (), s') →
  ∃ s3 s4 data counts,
    local_zarr s3 !! ".zmetadata" = Some data
    ∧ hub_zarr s3 !! ".zmetadata" = Some data
    ∧ copy_keys B policy (sorted_keys (local_zarr s3)) 0 0 0 s3 = (Ok counts, s4)
    ∧ local_zarr s' = local_zarr s4
    ∧ hub_zarr s' = hub_zarr s4.
Proof.
  unfold upload_zarr, tmp_attribute_change.
  destruct (bind _ _ (set_default_timeout timeout s)) as [r s4] eqn:Hrun.
  intros [= -> <-].
  apply bind_ok_inv in Hrun as (path_json & s0 & _ & Hrun).
  apply bind_ok_inv in Hrun as (path & s0' & _ & Hrun).
  apply bind_ok_inv in Hrun as ([] & s1 & _ & Hrun).
  apply bind_ok_inv in Hrun as ([] & s2 & _ & Hrun).
  apply bind_ok_inv in Hrun as (data & s2' & Hget & Hrun).
  apply local_getitem_spec in Hget as [-> Hdata].
  destruct (local_zarr s2 !! ".zmetadata") as [data'|] eqn:Hheld; [|done].
  injection Hdata as <-.
  apply bind_ok_inv in Hrun as ([] & s3 & Hset & Hrun).
  apply hub_setitem_spec in Hset as [Hlocal3 [[[] _]|[_ Hhub3]]].
  apply bind_ok_inv in Hrun as (counts & s4' & Hcopy & Hret).
  injection Hret as ->.
  unfold copy_store, bind, read in Hcopy. cbn [fst snd] in Hcopy.
  exists s3, s4, data, counts.
  rewrite Hhub3, lookup_insert_eq. rewrite Hlocal3 at 1. done.
Qed.

(** X15. With the policy [raise] the transfer of the archive never ends
    well, whatever the hub answers and whatever it holds: the client
    writes [.zmetadata] into the destination before the copy, and the
    copy then meets that key.  So an upload of a dataset with an archive
    under this policy always raises. *)
Theorem upload_dataset_raise_policy_fails dataset access timeout owner (s : State W) :
  uses_zarr dataset = true →
  is_raise (upload_dataset B dataset access timeout owner IfExistsRaise s).1.
Proof.
  intros Hzarr.
  destruct (upload_dataset B dataset access timeout owner IfExistsRaise s)
    as [[response|e] s'] eqn:Hrun; [|done].
  exfalso. revert Hrun. unfold upload_dataset.
  destruct (negb (truthy (license dataset))); [done|].
  intros Hrun.
  apply bind_ok_inv in Hrun as (effective & s0 & _ & Hrun).
  apply bind_ok_inv in Hrun as (dataset_owner & s0' & _ & Hrun).
  apply bind_ok_inv in Hrun as ([] & s1 & _ & Hrun).
  apply bind_ok_inv in Hrun as (announced & s2 & _ & Hrun).
  apply bind_ok_inv in Hrun as ([] & s3 & _ & Hrun).
  apply bind_ok_inv in Hrun as ([] & s4 & Hupload & _).
  cbn [uses_zarr] in Hupload. rewrite Hzarr in Hupload.
  apply upload_zarr_ok_inv in Hupload
    as (s5 & s6 & data & counts & Hlocal & Hhub & Hcopy & _).
  pose proof (copy_keys_raise_held (sorted_keys (local_zarr s5)) 0 0 0 s5 ".zmetadata")
    as Hraise.
  rewrite Hcopy in Hraise. apply Hraise.
  - apply sorted_keys_elem_of. by eexists.
  - by eexists.
Qed.

(** X16. After a transfer of the archive that ended well, the hub holds
    every key of the local archive, and its [.zmetadata] is the
    consolidated metadata of the local archive, under every policy:
    [skip] does not keep an older [.zmetadata] of the hub. *)
Theorem upload_zarr_publishes owner name dataset_json timeout policy (s s' : State W) :
  upload_zarr B owner name dataset_json timeout policy s = (Ok (), s') →
  is_Some (local_zarr s' !! ".zmetadata")
  ∧ hub_zarr s' !! ".zmetadata" = local_zarr s' !! ".zmetadata"
  ∧ ∀ key, is_Some (local_zarr s' !! key) → is_Some (hub_zarr s' !! key).
Proof.
  intros Hrun.
  apply upload_zarr_ok_inv in Hrun
    as (s3 & s4 & data & counts & Hlocal & Hhub & Hcopy & -> & ->).
  pose proof (copy_keys_stores policy (sorted_keys (local_zarr s3)) 0 0 0 s3)
    as (Hsource & _ & _).
  rewrite Hcopy in Hsource. cbn [snd] in Hsource. rewrite Hsource.
  split; [by eexists|]. split.
  - rewrite Hlocal. destruct policy.
    + pose proof (copy_keys_raise_held (sorted_keys (local_zarr s3)) 0 0 0 s3 ".zmetadata")
        as Hraise.
      rewrite Hcopy in Hraise. destruct Hraise.
      * apply sorted_keys_elem_of. by eexists.
      * by eexists.
    + destruct (copy_keys_ok _ _ _ _ _ _ _ _ Hcopy ".zmetadata") as [_ Hsame].
      { apply sorted_keys_elem_of. by eexists. }
      by rewrite Hsame.
    + pose proof (copy_keys_skip_keeps B (sorted_keys (local_zarr s3)) 0 0 0 s3
                    ".zmetadata" data Hhub) as Hkept.
      by rewrite Hcopy in Hkept.
  - intros key Hkey.
    apply (copy_keys_ok _ _ _ _ _ _ _ _ Hcopy key).
    by apply sorted_keys_elem_of.
Qed.

(** X17. Under the policy [replace], after a transfer of the archive
    that ended well the hub agrees with the local archive on every key
    the local archive holds. *)
Theorem upload_zarr_replace_mirrors owner name dataset_json timeout (s s' : State W)
    key data :
  upload_zarr B owner name dataset_json timeout IfExistsReplace s = (Ok (), s') →
  local_zarr s' !! key = Some data →
  hub_zarr s' !! key = Some data.
Proof.
  intros Hrun.
  apply upload_zarr_ok_inv in Hrun
    as (s3 & s4 & zmetadata & counts & _ & _ & Hcopy & -> & ->).
  pose proof (copy_keys_stores IfExistsReplace (sorted_keys (local_zarr s3)) 0 0 0 s3)
    as (Hsource & _ & _).
  rewrite Hcopy in Hsource. cbn [snd] in Hsource. rewrite Hsource.
  intros Hdata.
  destruct (copy_keys_ok _ _ _ _ _ _ _ _ Hcopy key) as [_ Hsame].
  { apply sorted_keys_elem_of. by eexists. }
  by rewrite Hsame.
Qed.

End ArchiveFacts.

(** ** Facts about the announce request *)

Section AnnounceFacts.

Context {W Table : Type}.
Context (B : Backend W Table).

(** Past the check of the license and the normalisation of the owner,
    the trace of an upload starts with the serialisation of the table
    and the announce request, however the upload ends. *)
Lemma upload_dataset_announces dataset access timeout owner if_exists (s : State W)
    dataset_owner :
  truthy (license dataset) = true →
  normalize_owner B (or_else owner (owner_of dataset)) = Ok dataset_owner →
  let effective_timeout := default (default_timeout s) timeout in
  let buffer := to_parquet B (table dataset) in
  let dataset_json :=
    dict_set "zarrRootPath" (JStr (fs_protocol B +:+ "://data.zarr"))
      (model_dump B
         (mkDataset (license dataset) (Some dataset_owner) (name_of dataset)
                    (table dataset) (uses_zarr dataset) (_zarr_md5sum_manifest dataset)
                    (md5sum dataset))) in
  ∃ rest,
    trace (upload_dataset B dataset access timeout owner if_exists s).2
    = trace s
      ++ EvTableSerialized (length buffer) (md5_hexdigest B buffer)
      :: EvRequest (announce_request (artifact_id B dataset_owner (name_of dataset))
                      (length buffer) (md5_hexdigest B buffer)
                      (_zarr_md5sum_manifest dataset) access dataset_json
                      effective_timeout)
      :: rest.
Proof.
  intros Hlicense Howner effective_timeout buffer dataset_json.
  rewrite (upload_dataset_steps B dataset access timeout owner if_exists s dataset_owner
             Hlicense Howner).
  fold effective_timeout buffer dataset_json.
  set (s0 := record (EvTableSerialized (length buffer) (md5_hexdigest B buffer)) s).
  unfold bind at 1. unfold announce.
  pose proof (base_request_to_hub_trace B
                ("/dataset/" +:+ artifact_id B dataset_owner (name_of dataset)) "PUT"
                (mkKwargs None
                   (Some (announce_json (length buffer) (md5_hexdigest B buffer)
                            (_zarr_md5sum_manifest dataset) access dataset_json))
                   None (Some effective_timeout) None) s0) as Hannounce.
  destruct (_base_request_to_hub B _ "PUT" _ s0) as [[response|e] s1]; cbn [snd] in *.
  2:{ exists []. rewrite Hannounce. unfold s0; simpl. by rewrite <- app_assoc. }
  unfold bind at 1.
  destruct (upload_table_trace B response buffer effective_timeout s1)
    as (evs1 & Htable & _).
  destruct (upload_table B response buffer effective_timeout s1) as [[[]|e] s2];
    cbn [snd] in *.
  2:{ exists evs1. rewrite Htable, Hannounce. unfold s0; simpl.
      by rewrite <- !app_assoc. }
  unfold bind at 1.
  destruct (uses_zarr dataset).
  - destruct (emits_only_upload_zarr B dataset_owner (name_of dataset) dataset_json
                effective_timeout if_exists s2) as (evs2 & Harray & _).
    destruct (upload_zarr B dataset_owner (name_of dataset) dataset_json
                effective_timeout if_exists s2) as [[[]|e] s3];
      unfold ret; cbn [snd] in *.
    all: exists (evs1 ++ evs2); rewrite Harray, Htable, Hannounce; unfold s0; simpl.
    all: by rewrite <- !app_assoc.
  - exists evs1. unfold ret; cbn [snd]. rewrite Htable, Hannounce. unfold s0; simpl.
    by rewrite <- !app_assoc.
Qed.

(** X18. A dataset without a name (no name at all, or the empty name) is
    announced at [/dataset/None]: the upload does not stop at the missing
    name, it sends the announce request to that address. *)
Theorem upload_dataset_unnamed dataset access timeout owner if_exists (s : State W)
    dataset_owner :
  truthy (license dataset) = true →
  normalize_owner B (or_else owner (owner_of dataset)) = Ok dataset_owner →
  truthy (name_of dataset) = false →
  ∃ size digest body rest,
    trace (upload_dataset B dataset access timeout owner if_exists s).2
    = trace s
      ++ EvTableSerialized size digest
      :: EvRequest (mkRequest "PUT" "/dataset/None" false USE_CLIENT_DEFAULT
                      (mkKwargs None (Some body) None
                                (Some (default (default_timeout s) timeout)) None))
      :: rest.
Proof.
  intros Hlicense Howner Hname.
  destruct (upload_dataset_announces dataset access timeout owner if_exists s
              dataset_owner Hlicense Howner) as [rest Htrace].
  rewrite Htrace. unfold announce_request, artifact_id. rewrite Hname.
  by eexists _, _, _, rest.
Qed.

(** X19. The body of the announce request: its [zarrRootPath] is always
    the path of the archive on the hub, whatever the serialisation of the
    dataset says; any other entry of the serialisation is in the body as
    it is, so an [access] entry of the serialisation wins over the
    [access] given to the call, which is sent only when the serialisation
    has none. *)
Theorem upload_dataset_announce_body dataset access timeout owner if_exists (s : State W)
    dataset_owner :
  truthy (license dataset) = true →
  normalize_owner B (or_else owner (owner_of dataset)) = Ok dataset_owner →
  let dump :=
    model_dump B
      (mkDataset (license dataset) (Some dataset_owner) (name_of dataset)
                 (table dataset) (uses_zarr dataset) (_zarr_md5sum_manifest dataset)
                 (md5sum dataset)) in
  NoDup dump.*1 →
  ∃ size digest url fields rest,
    trace (upload_dataset B dataset access timeout owner if_exists s).2
    = trace s
      ++ EvTableSerialized size digest
      :: EvRequest (mkRequest "PUT" url false USE_CLIENT_DEFAULT
                      (mkKwargs None (Some (JObj fields)) None
                                (Some (default (default_timeout s) timeout)) None))
      :: rest
    ∧ assoc "zarrRootPath" fields = Some (JStr (fs_protocol B +:+ "://data.zarr"))
    ∧ (∀ key value, key ≠ "zarrRootPath" → assoc key dump = Some value →
                    assoc key fields = Some value)
    ∧ (assoc "access" dump = None → assoc "access" fields = Some (JStr access)).
Proof.
  intros Hlicense Howner dump Hnodup.
  destruct (upload_dataset_announces dataset access timeout owner if_exists s
              dataset_owner Hlicense Howner) as [rest Htrace].
  fold dump in Htrace. rewrite Htrace. unfold announce_request, announce_json.
  eexists _, _, _, _, rest. split; [done|].
  pose proof (dict_set_NoDup "zarrRootPath" (JStr (fs_protocol B +:+ "://data.zarr"))
                dump Hnodup) as Hkeys.
  split; [|split].
  - rewrite assoc_dict_update by done. by rewrite assoc_dict_set_eq.
  - intros key value Hkey Hvalue.
    rewrite assoc_dict_update by done.
    rewrite assoc_dict_set_ne by done. by rewrite Hvalue.
  - intros Hnone.
    rewrite assoc_dict_update by done.
    rewrite assoc_dict_set_ne by done. by rewrite Hnone.
Qed.

End AnnounceFacts.

(** ** Facts about the names of results *)

(** The characters the validator accepts are the ASCII letters, the
    digits, the underscore and the dash. *)
Lemma char_in_valid_characters c :
  char_in c valid_characters = true ↔ is_slug_char c.
Proof.
  unfold is_slug_char.
  destruct c as [[] [] [] [] [] [] [] []]; vm_compute; split; try done; try lia.
  all: intros _; lia.
Qed.

Lemma validate_name_check name :
  forallb (λ c, char_in c valid_characters) (String.list_ascii_of_string name) = true
  ↔ Forall is_slug_char (String.list_ascii_of_string name).
Proof.
  induction (String.list_ascii_of_string name) as [|c rest IH]; simpl.
  - split; [constructor|done].
  - rewrite andb_true_iff, IH, char_in_valid_characters, Forall_cons. done.
Qed.

Lemma is_slug_char_dec c : Decision (is_slug_char c).
Proof. unfold is_slug_char. cbv zeta. apply _. Qed.

(** X20. A name passes the validator of [BenchmarkResults] exactly when
    each of its characters is an ASCII letter, a digit, an underscore or
    a dash; the empty name passes, and any other name is refused with an
    error. *)
Theorem validate_name_accepts name :
  (_validate_name (Some name) = Ok (Some name)
   ↔ Forall is_slug_char (String.list_ascii_of_string name))
  ∧ (is_raise (_validate_name (Some name))
     ↔ Exists (λ c, ¬ is_slug_char c) (String.list_ascii_of_string name)).
Proof.
  unfold _validate_name.
  pose proof (validate_name_check name) as Hcheck.
  destruct (forallb _ _).
  - assert (Forall is_slug_char (String.list_ascii_of_string name)) as Hslug
      by by apply Hcheck.
    split; [done|]. split; [done|].
    intros Hbad. apply Exists_exists in Hbad as (c & Hc & Hnot).
    destruct Hnot. rewrite Forall_forall in Hslug. by apply Hslug.
  - assert (¬ Forall is_slug_char (String.list_ascii_of_string name)) as Hnot.
    { intros Hslug. by apply Hcheck in Hslug. }
    split; [split; [done|by intros ?]|].
    split; [intros _|done].
    apply not_Forall_Exists in Hnot; [done|].
    intros c. apply is_slug_char_dec.
Qed.

(** X21. The name [__init__] makes up for results without a name does
    not pass the validator of names as soon as the text of the creation
    time has a character outside the accepted ones (the usual text of a
    time has a space and colons), with or without a user name. *)
Theorem init_name_default_is_refused user_name created_at c :
  c ∈ String.list_ascii_of_string created_at →
  ¬ is_slug_char c →
  is_raise (_validate_name (Some (init_name None user_name created_at))).
Proof.
  intros Hin Hbad. unfold _validate_name.
  pose proof (validate_name_check (init_name None user_name created_at)) as Hcheck.
  destruct (forallb _ _); [|done].
  destruct Hbad.
  assert (Forall is_slug_char
            (String.list_ascii_of_string (init_name None user_name created_at)))
    as Hslug by by apply Hcheck.
  rewrite Forall_forall in Hslug. apply Hslug.
  unfold init_name. destruct user_name as [user|]; [|done].
  assert (∀ a b, String.list_ascii_of_string (a +:+ b)
                 = String.list_ascii_of_string a ++ String.list_ascii_of_string b)
    as Happ.
  { intros a b. induction a as [|x a IH]; simpl; [done|]. by rewrite IH. }
  rewrite !Happ. apply elem_of_app. right. apply elem_of_app. by right.
Qed.

(** ** Facts about the version of an artifact *)

Section VersionFacts.

Context {Version : Type} (parse_version : string → Result Version).

(** X22. The validator of [version] hands back a version in these cases
    only, and always needs the version of the installed package to
    parse: no value gives the installed version, a version object is
    handed back as it is, and a text gives what it parses to, except the
    text [dev], which is never accepted. *)
Theorem validate_version_accepts installed value v :
  _validate_version parse_version installed value = Ok v
  ↔ ∃ current,
      parse_version installed = Ok current
      ∧ match value with
        | VersionNone => v = current
        | VersionStr s => s ≠ "dev" ∧ parse_version s = Ok v
        | VersionObject given => v = given
        end.
Proof.
  unfold _validate_version.
  destruct (parse_version installed) as [current|e].
  2:{ split; [done|]. by intros (current & [=] & _). }
  destruct value as [|s|given].
  - split; [intros [= <-]; by exists current|]. by intros (? & [= <-] & ->).
  - destruct (String.eqb s "dev") eqn:Hdev; cbn [negb].
    + apply String.eqb_eq in Hdev as ->. split; [done|]. by intros (? & _ & [] & _).
    + apply String.eqb_neq in Hdev.
      destruct (parse_version s) as [parsed|e].
      * split; [intros [= <-]; by exists current|]. by intros (? & _ & _ & [= <-]).
      * split; [done|]. by intros (? & _ & _ & [=]).
  - split; [intros [= <-]; by exists current|]. by intros (? & _ & ->).
Qed.

End VersionFacts.

(** ** Facts about the token exchange *)

(** X23. For the token-exchange grant the body is prepared with the
    access token of the external client as [subject_token] and the two
    fixed token types, whatever the caller passed under these three
    names, and every other keyword of the caller as it is.  For any
    other grant the keywords go through untouched and the external token
    is not read. *)
Theorem prepare_token_endpoint_body_fields {Body R}
    (super_prepare : Body → string → list (string * Json) → R)
    external_token body kwargs subject_token :
  assoc "access_token" external_token = Some subject_token →
  (∃ sent,
     _prepare_token_endpoint_body super_prepare (Some external_token) body
       token_exchange_grant kwargs
     = Ok (super_prepare body token_exchange_grant sent)
     ∧ assoc "subject_token" sent = Some subject_token
     ∧ assoc "subject_token_type" sent
       = Some (JStr "urn:ietf:params:oauth:token-type:access_token")
     ∧ assoc "requested_token_type" sent
       = Some (JStr "urn:ietf:params:oauth:token-type:jwt")
     ∧ ∀ key, key ≠ "subject_token" → key ≠ "subject_token_type" →
              key ≠ "requested_token_type" → assoc key sent = assoc key kwargs)
  ∧ ∀ grant_type external,
      grant_type ≠ token_exchange_grant →
      _prepare_token_endpoint_body super_prepare external body grant_type kwargs
      = Ok (super_prepare body grant_type kwargs).
Proof.
  intros Htoken. split.
  - unfold _prepare_token_endpoint_body. rewrite String.eqb_refl, Htoken.
    eexists. split; [done|].
    unfold dict_update. cbn [fold_left fst snd].
    repeat split.
    + rewrite !assoc_dict_set_ne by done. apply assoc_dict_set_eq.
    + rewrite !assoc_dict_set_ne by done. apply assoc_dict_set_eq.
    + apply assoc_dict_set_eq.
    + intros key H1 H2 H3. by rewrite !assoc_dict_set_ne by done.
  - intros grant_type external Hgrant. unfold _prepare_token_endpoint_body.
    apply String.eqb_neq in Hgrant. by rewrite Hgrant.
Qed.

(** ** Facts about [MinMaxSplit] *)

Lemma StronglySorted_filter_keeps {A} (R : relation A) (P : A → Prop)
    `{∀ x, Decision (P x)} l :
  StronglySorted R l → StronglySorted R (filter P l).
Proof.
  induction 1 as [|x l Hsorted IH Hall]; [constructor|].
  rewrite filter_cons. destruct (decide (P x)); [|done].
  constructor; [done|].
  rewrite Forall_forall in Hall. apply Forall_forall.
  intros y [_ Hy]%list_elem_of_filter. by apply Hall.
Qed.

Lemma StronglySorted_le_lt l :
  StronglySorted Nat.le l → NoDup l → StronglySorted Nat.lt l.
Proof.
  induction 1 as [|x l Hsorted IH Hall]; intros Hnodup; [constructor|].
  apply NoDup_cons in Hnodup as [Hfresh Hnodup].
  constructor; [by apply IH|].
  rewrite Forall_forall in Hall. apply Forall_forall. intros y Hy.
  specialize (Hall y Hy). unfold Nat.le, Nat.lt in *.
  assert (x ≠ y) by (by intros ->). lia.
Qed.

(** [np.setdiff1d]: the values of the first array that the second lacks,
    each once, in increasing order. *)
Lemma setdiff1d_spec ar1 ar2 :
  (∀ x, x ∈ setdiff1d ar1 ar2 ↔ x ∈ ar1 ∧ x ∉ ar2)
  ∧ StronglySorted Nat.lt (setdiff1d ar1 ar2).
Proof.
  unfold setdiff1d. split.
  - intros x. rewrite list_elem_of_filter, merge_sort_Permutation, elem_of_remove_dups.
    by split; intros [? ?].
  - apply StronglySorted_le_lt.
    + apply StronglySorted_filter_keeps, StronglySorted_merge_sort; apply _.
    + apply NoDup_filter. rewrite merge_sort_Permutation. apply NoDup_remove_dups.
Qed.

Section SplitFacts.

Context {Size Mol G : Type}.
Context (validate_shuffle_split : nat → Size → Size → Result (nat * nat)).
Context (to_mol : string → Mol).
Context (pick_diverse : list Mol → nat → Z → G → Result (list nat) * G).

(** The loop yields at most the splits that are left, all of them when
    no exception ends it, and each pair it yields divides the positions
    of the input. *)
Lemma iter_splits_pairs mols n_train n_samples base_seed i remaining (g g' : G)
    pairs ending :
  iter_splits pick_diverse mols n_train n_samples base_seed i remaining g
  = (pairs, ending, g') →
  (length pairs ≤ remaining)%nat
  ∧ (ending = None → length pairs = remaining)
  ∧ ∀ train test,
      (train, test) ∈ pairs →
      (∀ k, k ∈ test ↔ (k < n_samples)%nat ∧ k ∉ train)
      ∧ StronglySorted Nat.lt test.
Proof.
  revert i g pairs ending g'.
  induction remaining as [|remaining IH]; intros i g pairs ending g'; cbn [iter_splits].
  { intros [= <- <- <-]. split; [done|]. split; [done|].
    intros train test Hin. by apply elem_of_nil in Hin. }
  destruct (pick_diverse mols n_train (base_seed + Z.of_nat i) g) as [[picked|e] g1].
  2:{ intros [= <- <- <-]. split; [simpl; lia|]. split; [done|].
      intros train test Hin. by apply elem_of_nil in Hin. }
  destruct (iter_splits pick_diverse mols n_train n_samples base_seed (S i) remaining g1)
    as [[rest ending1] g2] eqn:Hrest.
  intros [= <- <- <-].
  destruct (IH _ _ _ _ _ Hrest) as (Hle & Hall & Hpairs).
  split; [simpl; lia|]. split; [intros Hend; simpl; by rewrite Hall|].
  intros train test [[= -> ->]|Hin]%elem_of_cons; [|by apply Hpairs].
  destruct (setdiff1d_spec (seq 0 n_samples) picked) as [Hmem Hsorted].
  split; [|done].
  intros k. rewrite Hmem, elem_of_seq.
  split; intros [? ?]; split; [lia|done|lia|done].
Qed.

(** X24. The splitter yields at most [n_splits] pairs, and all of them
    when no exception ends the iteration (the validation, the check of
    the input, or the picker may raise).  In every pair it yields, the
    test indices are exactly the positions of the input that were not
    picked for training, each once and in increasing order. *)
Theorem iter_indices_partition (self : MinMaxSplit Size) X (g g' : G) pairs ending :
  _iter_indices validate_shuffle_split to_mol pick_diverse self X g
  = (pairs, ending, g') →
  (length pairs ≤ n_splits self)%nat
  ∧ (ending = None → length pairs = n_splits self)
  ∧ ∀ train test,
      (train, test) ∈ pairs →
      (∀ i, i ∈ test ↔ (i < length X)%nat ∧ i ∉ train)
      ∧ StronglySorted Nat.lt test.
Proof.
  unfold _iter_indices.
  assert (∀ e, ([] : list (list nat * list nat), Some e, g) = (pairs, ending, g') →
               (length pairs ≤ n_splits self)%nat
               ∧ (ending = None → length pairs = n_splits self)
               ∧ ∀ train test,
                   (train, test) ∈ pairs →
                   (∀ i, i ∈ test ↔ (i < length X)%nat ∧ i ∉ train)
                   ∧ StronglySorted Nat.lt test) as Hstopped.
  { intros e [= <- <- <-]. split; [simpl; lia|]. split; [done|].
    intros train test Hin. by apply elem_of_nil in Hin. }
  destruct (validate_shuffle_split _ _ _) as [[n_train n_test]|e]; [|apply Hstopped].
  destruct (_smiles self) as [given|], (forallb is_str X);
    first [apply Hstopped | apply iter_splits_pairs].
Qed.

(** X26. When every element of the input is a string, the SMILES given
    to the constructor play no part: from the same state of the random
    source, the splitter yields the same pairs and ends the same way
    whatever they are, because the molecules handed to the picker are
    those of the input. *)
Theorem iter_indices_ignores_constructor_smiles (self : MinMaxSplit Size) X other (g : G) :
  forallb is_str X = true →
  _iter_indices validate_shuffle_split to_mol pick_diverse self X g
  = _iter_indices validate_shuffle_split to_mol pick_diverse
      (mkMinMaxSplit (n_splits self) other (test_size self) (train_size self)
                     (random_state self))
      X g.
Proof.
  intros Hstrings. unfold _iter_indices.
  cbn [test_size train_size _smiles random_state n_splits].
  rewrite Hstrings.
  destruct (validate_shuffle_split _ _ _) as [[n_train n_test]|e]; [|done].
  by destruct (_smiles self), other.
Qed.

End SplitFacts.

(** ** The further facts on the scripted world *)

Lemma request_connect_error_witness :
  ∃ text,
    (request scripted "GET" "/dataset" false USE_CLIENT_DEFAULT no_kwargs
       (initial world_ssl)).1
    = Raise (SSLCertVerificationError text
               (ConnectError
                  "[SSL: CERTIFICATE_VERIFY_FAILED] unable to get local issuer certificate")).
Proof.
  destruct (request_connect_error scripted "GET" "/dataset" false USE_CLIENT_DEFAULT
              no_kwargs (initial world_ssl)
              "[SSL: CERTIFICATE_VERIFY_FAILED] unable to get local issuer certificate"
              (mkScript [] true true "fresh-token")) as [Hssl _]; [reflexivity|].
  apply Hssl. exists "", " unable to get local issuer certificate". reflexivity.
Defined.

Lemma base_request_success_witness :
  (_base_request_to_hub scripted "/dataset/acme/solubility" "GET" no_kwargs
     (initial world_download)).1
  = Ok (ReplyJson metadata_body)
  ∧ (_base_request_to_hub scripted "/dataset/acme/solubility" "GET" no_kwargs
       (initial world_200_binary)).1
    = Raise UnicodeDecodeError.
Proof.
  split.
  - rewrite (base_request_success scripted "/dataset/acme/solubility" "GET" no_kwargs
               (initial world_download)
               (request scripted "GET" "/dataset/acme/solubility" false USE_CLIENT_DEFAULT
                  no_kwargs (initial world_download)).2
               (mkResponse 200 [] [] (Some metadata_body)));
      reflexivity.
  - rewrite (base_request_success scripted "/dataset/acme/solubility" "GET" no_kwargs
               (initial world_200_binary)
               (request scripted "GET" "/dataset/acme/solubility" false USE_CLIENT_DEFAULT
                  no_kwargs (initial world_200_binary)).2
               binary_200);
      reflexivity.
Defined.


Lemma list_datasets_ids_witness :
  list_datasets scripted 100 0 (initial world_listing)
  = (Ok [JStr "acme/solubility"; JStr "acme/permeability"],
     (_base_request_to_hub scripted "/dataset" "GET" (listing_kwargs 100 0)
        (initial world_listing)).2).
Proof.
  apply (list_datasets_ids scripted 100 0 (initial world_listing) _
           (ReplyJson listing_body)
           [JObj [("artifactId", JStr "acme/solubility")];
            JObj [("artifactId", JStr "acme/permeability")]]);
    [reflexivity | reflexivity |].
  repeat constructor.
Defined.

Lemma get_benchmark_downloads_dataset_witness :
  (get_benchmark scripted scripted_benchmarks "acme" "solubility-benchmark"
     VerifyUnlessZarr (initial world_benchmark)).2
  = (get_dataset scripted "acme" "solubility" VerifyUnlessZarr
       (_base_request_to_hub scripted "/benchmark/acme/solubility-benchmark" "GET"
          no_kwargs (initial world_benchmark)).2).2.
Proof.
  apply (get_benchmark_downloads_dataset scripted scripted_benchmarks
           "acme" "solubility-benchmark" VerifyUnlessZarr (initial world_benchmark) _
           benchmark_body
           (JObj [("owner", JObj [("slug", JStr "acme")]); ("name", JStr "solubility")])
           (JObj [("slug", JStr "acme")]) "acme" "solubility");
    reflexivity.
Defined.


Lemma open_zarr_file_errors_witness :
  (open_zarr_file scripted "acme" "solubility" "polarisfs://data.zarr" "w" true
     copy_state).2
  = copy_state.
Proof.
  destruct (open_zarr_file_errors scripted "acme" "solubility" "polarisfs://data.zarr"
              "w" true copy_state
              (ValueError "Consolidated archives can only be used with 'r' or 'r+' mode."))
    as [(_ & _ & _ & Hstate)|(cause & _ & Hopen)]; [reflexivity|exact Hstate|].
  discriminate Hopen.
Defined.



Lemma upload_dataset_raise_policy_fails_witness :
  is_raise (upload_dataset scripted sample_dataset "private" None None IfExistsRaise
              upload_state).1.
Proof.
  apply (upload_dataset_raise_policy_fails scripted sample_dataset "private" None None
           upload_state).
  reflexivity.
Defined.

Lemma upload_zarr_publishes_witness :
  hub_zarr (upload_zarr scripted "acme" (Some "solubility") sample_dataset_json
              (TimeoutAll 200) IfExistsSkip copy_state).2 !! ".zmetadata"
  = local_zarr (upload_zarr scripted "acme" (Some "solubility") sample_dataset_json
                  (TimeoutAll 200) IfExistsSkip copy_state).2 !! ".zmetadata"
  ∧ is_Some (hub_zarr (upload_zarr scripted "acme" (Some "solubility")
                         sample_dataset_json (TimeoutAll 200) IfExistsSkip
                         copy_state).2 !! "a/0").
Proof.
  destruct (upload_zarr_publishes scripted "acme" (Some "solubility") sample_dataset_json
              (TimeoutAll 200) IfExistsSkip copy_state
              (upload_zarr scripted "acme" (Some "solubility") sample_dataset_json
                 (TimeoutAll 200) IfExistsSkip copy_state).2)
    as (_ & Hmeta & Hkeys);
    [vm_compute; reflexivity|].
  split; [exact Hmeta|]. apply Hkeys. vm_compute. by eexists.
Defined.

Lemma upload_zarr_replace_mirrors_witness :
  hub_zarr (upload_zarr scripted "acme" (Some "solubility") sample_dataset_json
              (TimeoutAll 200) IfExistsReplace copy_state).2 !! "b/0"
  = Some [Byte.x02].
Proof.
  apply (upload_zarr_replace_mirrors scripted "acme" (Some "solubility")
           sample_dataset_json (TimeoutAll 200) copy_state); vm_compute; reflexivity.
Defined.

Lemma upload_dataset_unnamed_witness :
  ∃ size digest body rest,
    trace (upload_dataset scripted unnamed_dataset "private" None None IfExistsReplace
             upload_state).2
    = EvTableSerialized size digest
      :: EvRequest (mkRequest "PUT" "/dataset/None" false USE_CLIENT_DEFAULT
                      (mkKwargs None (Some body) None (Some (TimeoutAll 10)) None))
      :: rest.
Proof.
  apply (upload_dataset_unnamed scripted unnamed_dataset "private" None None
           IfExistsReplace upload_state "acme");
    reflexivity.
Defined.

Lemma upload_dataset_announce_body_witness :
  ∃ size digest url fields rest,
    trace (upload_dataset scripted sample_dataset "public" None None IfExistsReplace
             upload_state).2
    = EvTableSerialized size digest
      :: EvRequest (mkRequest "PUT" url false USE_CLIENT_DEFAULT
                      (mkKwargs None (Some (JObj fields)) None (Some (TimeoutAll 10))
                                None))
      :: rest
    ∧ assoc "zarrRootPath" fields = Some (JStr "polarisfs://data.zarr")
    ∧ assoc "access" fields = Some (JStr "public").
Proof.
  destruct (upload_dataset_announce_body scripted sample_dataset "public" None None
              IfExistsReplace upload_state "acme" eq_refl eq_refl)
    as (size & digest & url & fields & rest & Htrace & Hpath & _ & Haccess).
  { apply NoDup_singleton. }
  exists size, digest, url, fields, rest.
  split; [exact Htrace|]. split; [exact Hpath|]. apply Haccess. reflexivity.
Defined.

Lemma init_name_default_is_refused_witness :
  is_raise (_validate_name (Some (init_name None (Some "alice") "2024-05-01 12:30:00"))).
Proof.
  apply (init_name_default_is_refused (Some "alice") "2024-05-01 12:30:00"
           (Ascii.ascii_of_nat 32)).
  - apply list_elem_of_In. vm_compute. auto 20.
  - unfold is_slug_char. vm_compute. lia.
Defined.

Lemma prepare_token_endpoint_body_fields_witness :
  _prepare_token_endpoint_body (λ body grant_type kwargs, (body, grant_type, kwargs))
    None "body" "refresh_token" [("refresh_token", JStr "abc")]
  = Ok ("body", "refresh_token", [("refresh_token", JStr "abc")]).
Proof.
  destruct (prepare_token_endpoint_body_fields
              (λ body grant_type kwargs, (body, grant_type, kwargs))
              [("access_token", JStr "external")] "body"
              [("refresh_token", JStr "abc")] (JStr "external") eq_refl)
    as [_ Hother].
  apply Hother. discriminate.
Defined.

Lemma iter_indices_partition_witness :
  (∀ i, i ∈ [0]%nat ↔ (i < 3)%nat ∧ i ∉ [1; 2]%nat)
  ∧ StronglySorted Nat.lt [0]%nat.
Proof.
  destruct (iter_indices_partition sample_validate_shuffle_split id sample_pick_diverse
              sample_splitter sample_molecules 0%nat 0%nat
              [([0; 1]%nat, [2]%nat); ([1; 2]%nat, [0]%nat)] None eq_refl)
    as (_ & _ & Hpairs).
  apply (Hpairs [1; 2]%nat [0]%nat). right. left.
Defined.

Lemma iter_indices_ignores_constructor_smiles_witness :
  _iter_indices sample_validate_shuffle_split id sample_pick_diverse
    (mkMinMaxSplit 2 None () () (Some (-1))) sample_molecules 5%nat
  = _iter_indices sample_validate_shuffle_split id sample_pick_diverse
      (mkMinMaxSplit 2 (Some ["N"; "O"]) () () (Some (-1))) sample_molecules 5%nat.
Proof.
  apply (iter_indices_ignores_constructor_smiles sample_validate_shuffle_split id
           sample_pick_diverse (mkMinMaxSplit 2 None () () (Some (-1)))
           sample_molecules (Some ["N"; "O"]) 5%nat).
  reflexivity.
Defined.

(** ** Further runs on the scripted world *)

(** A download whose redirect names no headers and whose reported
    checksum is no digest: all three requests go out, the signed one
    without headers, and the setter of [md5sum] then fails the
    download. *)
Example get_dataset_refused_digest :
  let run := get_dataset scripted "acme" "solubility" VerifyUnlessZarr
               (initial world_bad_digest) in
  run.1 = Raise (ValueError
                   "The checksum should be the 32-character hexdigest of a 128 bit MD5 hash.")
  ∧ trace run.2
    = [EvRequest (mkRequest "GET" "/dataset/acme/solubility" false USE_CLIENT_DEFAULT
                            no_kwargs);
       EvRequest (mkRequest "GET" "/storage/table.parquet" false USE_CLIENT_DEFAULT
                            no_kwargs);
       EvRequest (mkRequest "GET" "https://bucket.example/signed" false AuthNone
                            no_kwargs)].
Proof. split; reflexivity. Qed.

(** A picker that refuses its seed ends the iteration before the first
    pair; a seed two below the limit gives one pair and then the
    error. *)
Example iter_indices_seed_out_of_range :
  (_iter_indices sample_validate_shuffle_split id sample_pick_diverse
     (mkMinMaxSplit 2 None () () (Some 1099511627776)) sample_molecules 0%nat).1
  = ([], Some (OtherError "OverflowError: Python int too large to convert to C long"))
  ∧ length (_iter_indices sample_validate_shuffle_split id sample_pick_diverse
              (mkMinMaxSplit 2 None () () (Some 4294967295)) sample_molecules 0%nat).1.1
    = 1%nat.
Proof. split; reflexivity. Qed.
